(** * Session access resolution and the print helper of the spreadsheet server

    A shallow embedding of [app/server/lib/DocSession.ts] (the session object
    and the two resolvers [getDocSessionUserId] and [getDocSessionAccess]) and
    of the client-side print helper ([printViewSection], its inner
    [prepareToPrint], and [renderAllRows]), followed by the properties the
    specification states about them. *)

From Stdlib Require Import List String Ascii Bool Arith ZArith Lia.
From Equations Require Import Equations.
Import ListNotations.
Open Scope string_scope.
Open Scope list_scope.

(* ===================================================================== *)
(** ** Computations that consult collaborators and may throw             *)
(* ===================================================================== *)

(** The resolvers read from up to three collaborators.  To state which of
    them a call looks at, every method call or field read on a collaborator
    is recorded, in order. *)
Inductive Source :=
| authorizer_getUserId      (* docSession.authorizer.getUserId()     *)
| authorizer_getCachedAuth  (* docSession.authorizer.getCachedAuth() *)
| req_getUserId             (* getUserId(docSession.req)             *)
| req_docAuth               (* docSession.req.docAuth                *)
| client_getCachedUserId.   (* docSession.client.getCachedUserId()   *)

Inductive Outcome (A : Type) :=
| Returns (a : A)
| Throws (message : string).
Arguments Returns {A} a.
Arguments Throws {A} message.

Record Run (A : Type) := mkRun { consulted : list Source; outcome : Outcome A }.
Arguments mkRun {A} consulted outcome.
Arguments consulted {A} r.
Arguments outcome {A} r.

Definition ret {A} (a : A) : Run A := mkRun [] (Returns a).

Definition throw {A} (message : string) : Run A := mkRun [] (Throws message).

Definition consult {A} (s : Source) (a : A) : Run A := mkRun [s] (Returns a).

Definition bind {A B} (m : Run A) (k : A -> Run B) : Run B :=
  match outcome m with
  | Returns a => mkRun (consulted m ++ consulted (k a)) (outcome (k a))
  | Throws e => mkRun (consulted m) (Throws e)
  end.

Declare Scope run_scope.
Delimit Scope run_scope with run.
Notation "'let*' x ':=' m 'in' k" := (bind m (fun x => k))
  (at level 10, x name, m at level 100, k at level 200) : run_scope.

(* ===================================================================== *)
(** ** DocSession.ts                                                     *)
(* ===================================================================== *)

(** Modelled from the spec: the closed set of access levels of
    [app/common/roles], which is not part of this excerpt.  Every member is a
    non-empty string literal in the source, so a [Role] is always truthy and
    only [null]/[undefined] (here [None]) is falsy. *)
Inductive Role := owners | editors | viewers | guests | members.

(** [mode?: 'nascent'|'plugin'|'system'] *)
Inductive Mode := nascent | plugin | system.

(** [app/common/BrowserSettings]: an object, hence truthy whenever present. *)
Record BrowserSettings := mkBrowserSettings {
  timezone : option string;
  locale : option string
}.

(** The part of the authorizer's cached result that the resolvers read. *)
Record DocAuthResult := mkDocAuthResult { access : option Role }.

(** The [Authorizer] interface, given by what its two methods answer. *)
Module Authorizer.
Record t := make {
    getUserId : option Z;
    getCachedAuth : DocAuthResult
  }.
End Authorizer.

(** The [Client] connection: its browser settings and cached user id. *)
Module Client.
Record t := make {
    browserSettings : BrowserSettings;
    getCachedUserId : option Z
  }.
End Client.

(** [RequestWithLogin]: [docAuth] is optional ([req.docAuth?.access]). *)
Record RequestWithLogin := mkRequest {
  userId : option Z;
  docAuth : option DocAuthResult
}.

(** [interface OptDocSession].  Optional fields ([?]) and [Client|null] are
    options: [None] stands for [undefined], and for [null] in [client]. *)
Record OptDocSession := mkOptDocSession {
  client : option Client.t;
  shouldBundleActions : option bool;
  linkId : option Z;
  browserSettings : option BrowserSettings;
  req : option RequestWithLogin;
  mode : option Mode;
  authorizer : option Authorizer.t
}.

(** [makeOptDocSession(client, browserSettings?)] *)
Definition makeOptDocSession (client : option Client.t)
    (browserSettings : option BrowserSettings) : OptDocSession :=
  let browserSettings :=
    match client, browserSettings with
    | Some c, None => Some (Client.browserSettings c)
    | _, _ => browserSettings
    end in
  {| client := client; shouldBundleActions := None; linkId := None;
     browserSettings := browserSettings; req := None; mode := None;
     authorizer := None |}.

(** The [options] argument of [makeExceptionalDocSession]; it defaults to
    the empty object. *)
Record ExceptionalOptions := mkOptions {
  opt_client : option Client.t;
  opt_req : option RequestWithLogin;
  opt_browserSettings : option BrowserSettings
}.

Definition no_options : ExceptionalOptions := mkOptions None None None.

Definition set_mode (m : option Mode) (s : OptDocSession) : OptDocSession :=
  {| client := client s; shouldBundleActions := shouldBundleActions s;
     linkId := linkId s; browserSettings := browserSettings s;
     req := req s; mode := m; authorizer := authorizer s |}.

Definition set_req (r : option RequestWithLogin) (s : OptDocSession)
    : OptDocSession :=
  {| client := client s; shouldBundleActions := shouldBundleActions s;
     linkId := linkId s; browserSettings := browserSettings s;
     req := r; mode := mode s; authorizer := authorizer s |}.

(** [makeExceptionalDocSession(mode, options = {})] *)
Definition makeExceptionalDocSession (mode : Mode)
    (options : ExceptionalOptions) : OptDocSession :=
  let docSession :=
    makeOptDocSession (opt_client options) (opt_browserSettings options) in
  let docSession := set_mode (Some mode) docSession in
  let docSession := set_req (opt_req options) docSession in
  docSession.

(** [docSessionFromRequest(req)] *)
Definition docSessionFromRequest (r : RequestWithLogin) : OptDocSession :=
  {| client := None; shouldBundleActions := None; linkId := None;
     browserSettings := None; req := Some r; mode := None;
     authorizer := None |}.

Section Resolvers.

  (** [getUserId] of [app/server/lib/Authorizer] is imported, not defined
      in this excerpt; it is taken as given, with its declared type. *)
Variable getUserId : RequestWithLogin -> Z.

  Open Scope run_scope.

  (** [getDocSessionUserId(docSession): number|null] *)
Definition getDocSessionUserId (docSession : OptDocSession)
      : Run (option Z) :=
    match authorizer docSession with
    | Some a => consult authorizer_getUserId (Authorizer.getUserId a)
    | None =>
      match req docSession with
      | Some r => consult req_getUserId (Some (getUserId r))
      | None =>
        match client docSession with
        | Some c => consult client_getCachedUserId (Client.getCachedUserId c)
        | None => ret None
        end
      end
    end.

Definition is_mode (m : Mode) (o : option Mode) : bool :=
    match o, m with
    | Some nascent, nascent | Some plugin, plugin | Some system, system => true
    | _, _ => false
    end.

  (** [getDocSessionAccess(docSession): Role] *)
Definition getDocSessionAccess (docSession : OptDocSession) : Run Role :=
    if is_mode nascent (mode docSession) || is_mode system (mode docSession)
    then ret owners
    else if is_mode plugin (mode docSession) then ret editors
    else
      match authorizer docSession with
      | Some a =>
        let* auth := consult authorizer_getCachedAuth (Authorizer.getCachedAuth a) in
        match access auth with
        | None => throw "getDocSessionAccess expected authorizer.getCachedAuth"
        | Some access => ret access
        end
      | None =>
        match req docSession with
        | Some r =>
          let* auth := consult req_docAuth (docAuth r) in
          match match auth with Some d => access d | None => None end with
          | None => throw "getDocSessionAccess expected req.docAuth.access"
          | Some access => ret access
          end
        | None =>
          throw "getDocSessionAccess could not find access information in DocSession"
        end
      end.

End Resolvers.

(* ===================================================================== *)
(** ** The page: a tree of elements with class lists                     *)
(* ===================================================================== *)

(** An element carries its class list (a [DOMTokenList], kept in order) and
    its child elements.  The root is the document element. *)
#[warnings="-register-all"]
Inductive Element := Elem (classList : list string) (children : list Element).

Definition classList (e : Element) : list string :=
  match e with Elem cl _ => cl end.

Definition children (e : Element) : list Element :=
  match e with Elem _ cs => cs end.

(** A reference to an element of the page: the child indices that lead to
    it from the document element.  Two references denote the same node
    exactly when they are equal. *)
Definition NodeRef := list nat.

Fixpoint nodeRef_eqb (a b : NodeRef) : bool :=
  match a, b with
  | [], [] => true
  | i :: a', j :: b' => Nat.eqb i j && nodeRef_eqb a' b'
  | _, _ => false
  end.

Fixpoint getElem (p : NodeRef) (d : Element) : option Element :=
  match p with
  | [] => Some d
  | i :: q =>
    match nth_error (children d) i with
    | Some c => getElem q c
    | None => None
    end
  end.

Definition classesAt (p : NodeRef) (d : Element) : option (list string) :=
  option_map classList (getElem p d).

Fixpoint mapNth {A} (f : A -> A) (i : nat) (l : list A) : list A :=
  match l, i with
  | [], _ => []
  | x :: r, O => f x :: r
  | x :: r, S j => x :: mapNth f j r
  end.

(** In-place mutation of the element a reference denotes; a reference that
    denotes nothing leaves the page as it is. *)
Fixpoint updateElem (f : Element -> Element) (p : NodeRef) (d : Element)
    : Element :=
  match p with
  | [] => f d
  | i :: q => Elem (classList d) (mapNth (updateElem f q) i (children d))
  end.

Definition contains_token (token : string) (cl : list string) : bool :=
  existsb (String.eqb token) cl.

(** [DOMTokenList.toggle(token, force)]: with [force] true the token is
    added (at the end) unless present, with [force] false it is removed. *)
Definition toggle (token : string) (force : bool) (cl : list string)
    : list string :=
  if force then
    if contains_token token cl then cl else cl ++ [token]
  else filter (fun t => negb (String.eqb t token)) cl.

(** [elem.classList.toggle(token, force)] *)
Definition classList_toggle (token : string) (force : bool) (p : NodeRef)
    (d : Element) : Element :=
  updateElem (fun e => Elem (toggle token force (classList e)) (children e)) p d.

(** [a.contains(b)]: [b] is [a] itself or one of its descendants. *)
Fixpoint contains (a b : NodeRef) : bool :=
  match a, b with
  | [], _ => true
  | i :: a', j :: b' => Nat.eqb i j && contains a' b'
  | _ :: _, [] => false
  end.

(** [elem.parentElement]; the document element has none. *)
Definition parentElement (p : NodeRef) : option NodeRef :=
  match p with
  | [] => None
  | _ :: _ => Some (removelast p)
  end.

(** First element in tree order, among a list of siblings and their
    descendants, that [search] accepts. *)
Fixpoint firstAmong (search : Element -> option NodeRef) (i : nat)
    (l : list Element) : option NodeRef :=
  match l with
  | [] => None
  | x :: r =>
    match search x with
    | Some q => Some (i :: q)
    | None => firstAmong search (S i) r
    end
  end.

(** First element in tree order, [e] included, with class [c]. *)
Fixpoint firstMatch (c : string) (e : Element) : option NodeRef :=
  match e with
  | Elem cl cs =>
    if contains_token c cl then Some []
    else firstAmong (firstMatch c) 0 cs
  end.

(** [elem.querySelector('.' + c)]: the first descendant of [p], in tree
    order, with class [c]; [p] itself is not a candidate. *)
Definition querySelector (c : string) (p : NodeRef) (d : Element)
    : option NodeRef :=
  match getElem p d with
  | Some e => option_map (app p) (firstAmong (firstMatch c) 0 (children e))
  | None => None
  end.

Definition height (elem : option NodeRef) : nat :=
  match elem with
  | None => 0
  | Some p => S (List.length p)
  end.

(** [elem.closest('.' + c)]: the nearest of [elem] and its ancestors with
    class [c]. *)
Equations? closest (c : string) (d : Element) (elem : option NodeRef)
    : option NodeRef by wf (height elem) lt :=
  closest c d None := None;
  closest c d (Some p) :=
    if match classesAt p d with
       | Some cl => contains_token c cl
       | None => false
       end
    then Some p
    else closest c d (parentElement p).
Proof.
  destruct p as [|i p]; [simpl; lia|].
  unfold parentElement, height. rewrite removelast_firstn_len.
  rewrite length_firstn. simpl List.length. lia.
Qed.

(** The loop
    [while (elem) { elem.classList.toggle(token, onOff); elem = elem.parentElement; }] *)
Equations? toggleUpwards (token : string) (onOff : bool)
    (elem : option NodeRef) (d : Element) : Element by wf (height elem) lt :=
  toggleUpwards token onOff None d := d;
  toggleUpwards token onOff (Some p) d :=
    toggleUpwards token onOff (parentElement p)
      (classList_toggle token onOff p d).
Proof.
  destruct p as [|i p]; [simpl; lia|].
  unfold parentElement, height. rewrite removelast_firstn_len.
  rewrite length_firstn. simpl List.length. lia.
Qed.

(* ===================================================================== *)
(** ** The window: page, listeners, and what has been observed           *)
(* ===================================================================== *)

(** The view instance of a section, as far as printing uses it.
    [prepareToPrint] is the view's own method: it may re-render the view's
    part of the page.  [triggerPrint] tells whether the promise returned by
    [CustomView.triggerPrint()] resolves ([true]) or rejects ([false]). *)
Record ViewInstance := mkViewInstance {
  isCustomView : bool;
  triggerPrint : bool;
  viewPane : option NodeRef;
  view_prepareToPrint : bool -> Element -> Element
}.

(** [ViewSectionRec]: [viewSection.viewInstance.peek()] may be null. *)
Record ViewSectionRec := mkViewSectionRec {
  viewInstance : option ViewInstance
}.

(** The layout: the [dom] of each box, in [forEachBox] order. *)
Definition Layout := list NodeRef.

(** What the outside can observe of a print, in order of occurrence. *)
Inductive Observation :=
| ViewPrepareToPrint (onOff : bool)   (* viewInstance.prepareToPrint(onOff) *)
| TriggerPrint                        (* viewInstance.triggerPrint()        *)
| ConsoleWarn                         (* console.warn(...)                  *)
| PrintedOutput (page : Element).     (* the browser renders this page      *)

Inductive EventName := beforeprint | afterprint.

Definition eventName_eqb (a b : EventName) : bool :=
  match a, b with
  | beforeprint, beforeprint | afterprint, afterprint => true
  | _, _ => false
  end.

(** The two closures [printViewSection] registers, with what they capture. *)
Inductive Handler :=
| OnBeforePrint (layout : Layout) (sectionElem : NodeRef) (view : ViewInstance)
| OnAfterPrint (sub1 : nat) (layout : Layout) (sectionElem : NodeRef)
    (view : ViewInstance).

(** A subscription made by [dom.onElem(window, event, handler)]. *)
Record Subscription := mkSubscription {
  sub_id : nat;
  sub_event : EventName;
  sub_handler : Handler
}.

Record Window := mkWindow {
  document : Element;
  listeners : list Subscription;
  nextSub : nat;
  debugPrinting : bool;
  observed : list Observation
}.

Definition on_document (f : Element -> Element) (w : Window) : Window :=
  mkWindow (f (document w)) (listeners w) (nextSub w) (debugPrinting w)
    (observed w).

Definition observe (o : Observation) (w : Window) : Window :=
  mkWindow (document w) (listeners w) (nextSub w) (debugPrinting w)
    (observed w ++ [o]).

(** [dom.onElem(window, event, handler)]: returns the new subscription. *)
Definition onElem (e : EventName) (h : Handler) (w : Window) : nat * Window :=
  (nextSub w,
   mkWindow (document w) (listeners w ++ [mkSubscription (nextSub w) e h])
     (S (nextSub w)) (debugPrinting w) (observed w)).

(** [sub.dispose()] *)
Definition dispose (sub : nat) (w : Window) : Window :=
  mkWindow (document w)
    (filter (fun s => negb (Nat.eqb (sub_id s) sub)) (listeners w))
    (nextSub w) (debugPrinting w) (observed w).

(** [layout.forEachBox(callback)] *)
Definition forEachBox (layout : Layout) (callback : NodeRef -> Window -> Window)
    (w : Window) : Window :=
  fold_left (fun w box => callback box w) layout w.

(** The inner function [prepareToPrint(onOff)] of [printViewSection], with
    the variables it closes over as parameters. *)
Definition prepareToPrint (layout : Layout) (sectionElem : NodeRef)
    (viewInstance : ViewInstance) (onOff : bool) (w : Window) : Window :=
  (* Hide all layout boxes that do NOT contain the section to be printed. *)
  let w := forEachBox layout (fun box w =>
             if negb (contains box sectionElem)
             then on_document (classList_toggle "print-hide" onOff box) w
             else w) w in
  (* Mark the section to be printed. *)
  let w := on_document (classList_toggle "print-widget" onOff sectionElem) w in
  (* Let the view instance update its rendering. *)
  let w := observe (ViewPrepareToPrint onOff)
             (on_document (view_prepareToPrint viewInstance onOff) w) in
  let keyElem :=
    match querySelector "print-all-rows" sectionElem (document w) with
    | Some e => e
    | None => sectionElem
    end in
  (* Go through all parents of the element to be printed. *)
  on_document (toggleUpwards "print-parent" onOff (parentElement keyElem)) w.

(** Running a registered closure.  [sub2] is the subscription the running
    handler was registered under: the [afterprint] closure refers to its own
    subscription. *)
Definition runHandler (sub2 : nat) (h : Handler) (w : Window) : Window :=
  match h with
  | OnBeforePrint layout sectionElem view =>
    prepareToPrint layout sectionElem view true w
  | OnAfterPrint sub1 layout sectionElem view =>
    let w := dispose sub1 w in
    let w := dispose sub2 w in
    if negb (debugPrinting w)
    then prepareToPrint layout sectionElem view false w
    else w
  end.

(** Dispatch of an event on the window: the listeners registered for it at
    the time of dispatch run in order of registration; one that has been
    disposed of in the meantime is skipped. *)
Definition dispatchEvent (e : EventName) (w : Window) : Window :=
  fold_left
    (fun w s =>
       if eventName_eqb (sub_event s) e
          && existsb (fun s' => Nat.eqb (sub_id s') (sub_id s)) (listeners w)
       then runHandler (sub_id s) (sub_handler s) w
       else w)
    (listeners w) w.

(** [window.print()], following the platform's printing steps: fire
    [beforeprint], render the page as it then is, fire [afterprint]. *)
Definition window_print (w : Window) : Window :=
  let w := dispatchEvent beforeprint w in
  let w := observe (PrintedOutput (document w)) w in
  dispatchEvent afterprint w.

(** [printViewSection(layout, viewSection)] *)
Definition printViewSection (layout : Layout) (viewSection : ViewSectionRec)
    (w : Window) : Outcome Window :=
  let sectionElem :=
    match viewInstance viewSection with
    | Some v => closest "viewsection_content" (document w) (viewPane v)
    | None => None
    end in
  match viewInstance viewSection, sectionElem with
  | Some view, Some sectionElem =>
    let attempt :=
      if isCustomView view then
        if triggerPrint view then inl (observe TriggerPrint w)
        else inr (observe ConsoleWarn (observe TriggerPrint w))
      else inr w in
    match attempt with
    | inl w => Returns w
    | inr w =>
      let '(sub1, w) := onElem beforeprint
                          (OnBeforePrint layout sectionElem view) w in
      let '(sub2, w) := onElem afterprint
                          (OnAfterPrint sub1 layout sectionElem view) w in
      Returns (window_print w)
    end
  | _, _ => Throws "No page widget to print"
  end.

(* ===================================================================== *)
(** ** renderAllRows                                                     *)
(* ===================================================================== *)

(** [type RowId = number|'new'] *)
Inductive RowId := RowNumber (n : Z) | RowNew.

(** The newline of [html.join("\n")]. *)
Definition newline : string := String (Ascii.ascii_of_nat 10) EmptyString.

(** [Array.prototype.forEach], whose callback also receives the index. *)
Fixpoint forEach {A St : Type} (callback : A -> nat -> St -> St) (l : list A)
    (index : nat) (s : St) : St :=
  match l with
  | [] => s
  | x :: r => forEach callback r (S index) (callback x index s)
  end.

(** The element [dom('div.print-all-rows')] after
    [result.innerHTML = markup]: its tag and class, and the markup the setter
    was given.  Its child nodes are the parse of that markup; what reading
    [innerHTML] gives back is defined further down. *)
Record PrintAllRows := mkPrintAllRows {
  tagName : string;
  className : list string;
  assignedHTML : string
}.

Section RenderAllRows.

  (** The table model is opaque to [renderAllRows]. *)
Variable DataTableModel : Type.

  (** The floating row model: one mutable object, re-pointed at each row in
      turn through the observable [_index] and [assign(rowId)]. *)
Record DataRowModel := mkDataRowModel {
    tableModel : DataTableModel;
    _index : option nat;
    rowId : option Z;
    disposed : bool
  }.

  (** [tableModel.createFloatingRowModel(null)] *)
Definition createFloatingRowModel (t : DataTableModel) : DataRowModel :=
    mkDataRowModel t None None false.

Definition set_index (index : nat) (r : DataRowModel) : DataRowModel :=
    mkDataRowModel (tableModel r) (Some index) (rowId r) (disposed r).

Definition assign (n : Z) (r : DataRowModel) : DataRowModel :=
    mkDataRowModel (tableModel r) (_index r) (Some n) (disposed r).

Definition dispose_row (r : DataRowModel) : DataRowModel :=
    mkDataRowModel (tableModel r) (_index r) (rowId r) true.

  (** The rendered row and the browser's serialisation of it. *)
Variable RenderedRow : Type.
Variable outerHTML : RenderedRow -> string.

  (** The locals of [renderAllRows] that the loop body mutates. *)
Record Locals := mkLocals {
    rowModel : DataRowModel;
    html : list string
  }.

  (** The callback given to [rowIds.forEach] in [renderAllRows]. *)
Definition renderOne (renderRow : DataRowModel -> RenderedRow)
      (rowId : RowId) (index : nat) (locals : Locals) : Locals :=
    match rowId with
    | RowNumber n =>
      let rowModel := set_index index (rowModel locals) in
      let rowModel := assign n rowModel in
      let elem := renderRow rowModel in
      mkLocals rowModel (html locals ++ [outerHTML elem])%list
    | RowNew => locals
    end.

  (** [renderAllRows(tableModel, rowIds, renderRow)] *)
Definition renderAllRows (t : DataTableModel) (rowIds : list RowId)
      (renderRow : DataRowModel -> RenderedRow) : PrintAllRows :=
    let locals := mkLocals (createFloatingRowModel t) [] in
    let locals := forEach (renderOne renderRow) rowIds 0 locals in
    let _ := dispose_row (rowModel locals) in
    mkPrintAllRows "div" ["print-all-rows"] (String.concat newline (html locals)).

  (** The rows that get rendered: every row id other than ['new'], in input
      order, paired with its position in the input. *)
Definition renderedRows (rowIds : list RowId) (start : nat) : list (nat * Z) :=
    flat_map (fun ir => match snd ir with
                        | RowNumber n => [(fst ir, n)]
                        | RowNew => []
                        end)
      (combine (seq start (List.length rowIds)) rowIds).

  (** The floating row model once pointed at a row. *)
Definition assignedTo (t : DataTableModel) (ir : nat * Z) : DataRowModel :=
    mkDataRowModel t (Some (fst ir)) (Some (snd ir)) false.

End RenderAllRows.

Arguments mkDataRowModel {DataTableModel}.
Arguments tableModel {DataTableModel}.
Arguments _index {DataTableModel}.
Arguments rowId {DataTableModel}.
Arguments disposed {DataTableModel}.
Arguments mkLocals {DataTableModel}.
Arguments rowModel {DataTableModel}.
Arguments html {DataTableModel}.
Arguments renderOne {DataTableModel RenderedRow}.
Arguments renderAllRows {DataTableModel RenderedRow}.
Arguments renderedRows rowIds start : clear implicits.
Arguments assignedTo {DataTableModel}.

(* ===================================================================== *)
(** ** Reading innerHTML back                                            *)
(* ===================================================================== *)

(** [elem.innerHTML], read after [elem.innerHTML = markup]: the platform
    parses the markup as the content of the element and serialises the
    resulting child nodes.  [readBack] is that function of the markup, for a
    [div] as the element. *)
Definition innerHTML (readBack : string -> string) (e : PrintAllRows) : string :=
  readBack (assignedHTML e).

(** A model of that platform function, after the HTML standard's fragment
    parsing (context element [div], insertion mode "in body") and fragment
    serialisation.  It covers markup as the serialiser writes it for trees
    of ordinary container elements such as [div] and [span] (attributes are
    kept as written), of table-structure elements, and of text; void
    elements, implied end tags, comments and raw text elements are outside
    it. *)
Inductive Token :=
| StartTag (name : string) (attributes : string)
| EndTag (name : string)
| Characters (data : string).

Definition textToken (data : string) : list Token :=
  match data with
  | EmptyString => []
  | _ => [Characters data]
  end.

(** Splits the inside of a start tag at its first space. *)
Fixpoint splitName (name : string) (inside : string) : string * string :=
  match inside with
  | EmptyString => (name, EmptyString)
  | String c rest =>
    if Ascii.eqb c " "%char then (name, inside)
    else splitName (name ++ String c EmptyString)%string rest
  end.

Definition tagToken (inside : string) : Token :=
  match inside with
  | String "/"%char name => EndTag name
  | _ => let '(name, attributes) := splitName EmptyString inside in
         StartTag name attributes
  end.

Fixpoint tokenize (inTag : bool) (pending : string) (markup : string)
    : list Token :=
  match markup with
  | EmptyString => if inTag then [] else textToken pending
  | String c rest =>
    if inTag then
      if Ascii.eqb c ">"%char then tagToken pending :: tokenize false EmptyString rest
      else tokenize true (pending ++ String c EmptyString)%string rest
    else
      if Ascii.eqb c "<"%char then textToken pending ++ tokenize true EmptyString rest
      else tokenize false (pending ++ String c EmptyString)%string rest
  end.

#[warnings="-register-all"]
Inductive Node :=
| TextNode (data : string)
| ElementNode (name : string) (attributes : string) (childNodes : list Node).

(** The start tags that "in body" ignores outside a table. *)
Definition tableStructure (name : string) : bool :=
  existsb (String.eqb name)
    ["caption"; "col"; "colgroup"; "frame"; "head"; "tbody"; "td"; "tfoot";
     "th"; "thead"; "tr"].

(** An element on the stack of open elements, its children newest first. *)
Record OpenElement := mkOpenElement {
  open_name : string;
  open_attributes : string;
  open_children : list Node
}.

Definition closeElement (e : OpenElement) (carry : list Node) : Node :=
  ElementNode (open_name e) (open_attributes e)
    (rev (carry ++ open_children e)).

(** Insert a node in the current element, or at top level. *)
Definition insertNode (n : Node) (open : list OpenElement) (top : list Node)
    : list OpenElement * list Node :=
  match open with
  | e :: rest =>
    (mkOpenElement (open_name e) (open_attributes e) (n :: open_children e)
       :: rest, top)
  | [] => ([], n :: top)
  end.

(** Pop the open elements up to and including the first named [name]. *)
Fixpoint popUntil (name : string) (open : list OpenElement) (carry : list Node)
    (top : list Node) : list OpenElement * list Node :=
  match open with
  | [] => ([], carry ++ top)
  | e :: rest =>
    if String.eqb (open_name e) name
    then insertNode (closeElement e carry) rest top
    else popUntil name rest [closeElement e carry] top
  end.

(** End of input: every open element is closed. *)
Fixpoint closeAll (open : list OpenElement) (carry : list Node)
    (top : list Node) : list Node :=
  match open with
  | [] => carry ++ top
  | e :: rest => closeAll rest [closeElement e carry] top
  end.

Definition treeStep (state : list OpenElement * list Node) (t : Token)
    : list OpenElement * list Node :=
  let '(open, top) := state in
  match t with
  | Characters data => insertNode (TextNode data) open top
  | StartTag name attributes =>
    if tableStructure name then state
    else (mkOpenElement name attributes [] :: open, top)
  | EndTag name =>
    if existsb (fun e => String.eqb (open_name e) name) open
    then popUntil name open [] top
    else state
  end.

Definition parseFragment (markup : string) : list Node :=
  let '(open, top) := fold_left treeStep (tokenize false EmptyString markup) ([], []) in
  rev (closeAll open [] top).

Fixpoint serializeNode (n : Node) : string :=
  match n with
  | TextNode data => data
  | ElementNode name attributes cs =>
    ("<" ++ name ++ attributes ++ ">"
     ++ fold_right (fun c rest => serializeNode c ++ rest) EmptyString cs
     ++ "</" ++ name ++ ">")%string
  end.

Definition serializeFragment (nodes : list Node) : string :=
  fold_right (fun c rest => (serializeNode c ++ rest)%string) EmptyString nodes.

(** What a [div] reads back as [innerHTML] after being assigned [markup]. *)
Definition divInnerHTML (markup : string) : string :=
  serializeFragment (parseFragment markup).



(* ===================================================================== *)
(** ** Definitions used to state the properties                          *)
(* ===================================================================== *)

(** The role an exceptional mode stands for. *)
Definition mode_role (m : Mode) : Role :=
  match m with
  | nascent | system => owners
  | plugin => editors
  end.

(** The access field of the source that [getDocSessionAccess] consults when
    no mode is set: the authorizer's cached auth if an authorizer is
    present, else the request's [docAuth]. *)
Definition consulted_access_missing (s : OptDocSession) : Prop :=
  (exists a, authorizer s = Some a /\ access (Authorizer.getCachedAuth a) = None) \/
  (authorizer s = None /\
   exists r, req s = Some r /\
     (docAuth r = None \/ exists d, docAuth r = Some d /\ access d = None)).

(** Concrete sessions. *)
Module Sessions.
Definition settings : BrowserSettings :=
    mkBrowserSettings (Some "Europe/Paris") (Some "fr-FR").
Definition alice : Client.t := Client.make settings (Some 17%Z).
Definition viewer_auth : Authorizer.t :=
    Authorizer.make (Some 5%Z) (mkDocAuthResult (Some viewers)).
Definition viewer_req : RequestWithLogin :=
    mkRequest (Some 9%Z) (Some (mkDocAuthResult (Some viewers))).
  (** A session on a live client connection only, as [makeOptDocSession]
      builds it. *)
Definition client_only : OptDocSession := makeOptDocSession (Some alice) None.
  (** A plugin session that also carries a request. *)
Definition plugin_session : OptDocSession :=
    makeExceptionalDocSession plugin (mkOptions (Some alice) (Some viewer_req) None).
Definition req_userId (r : RequestWithLogin) : Z :=
    match userId r with Some n => n | None => 0%Z end.
End Sessions.

(** [sectionElem.querySelector('.print-all-rows') || sectionElem] *)
Definition keyElemOf (sectionElem : NodeRef) (d : Element) : NodeRef :=
  match querySelector "print-all-rows" sectionElem d with
  | Some e => e
  | None => sectionElem
  end.

(** [a] is an ancestor of [k] other than [k] itself. *)
Definition properAncestor (a k : NodeRef) : bool :=
  contains a k && negb (nodeRef_eqb a k).

(** The layout boxes that [prepareToPrint] hides: those whose [dom] does not
    contain the section element. *)
Definition hiddenBox (layout : Layout) (sectionElem p : NodeRef) : bool :=
  existsb (nodeRef_eqb p) layout && negb (contains p sectionElem).

(** Toggle [token] to [onOff] on a class list when [b] holds. *)
Definition toggleIf (b : bool) (token : string) (onOff : bool)
    (cl : list string) : list string :=
  if b then toggle token onOff cl else cl.

(** The view's own [prepareToPrint(onOff)] leaves the class list of every
    element of the page as it is (it may still add elements). *)
Definition view_keeps_classes (v : ViewInstance) (onOff : bool) : Prop :=
  forall d p cl, classesAt p d = Some cl ->
    classesAt p (view_prepareToPrint v onOff d) = Some cl.

(** An update that only rewrites the class list of its target. *)
Definition reclass (g : list string -> list string) (e : Element) : Element :=
  Elem (g (classList e)) (children e).

(** The page as the view instance finds it when [prepareToPrint] calls it:
    the boxes to hide and the section have had their tokens toggled. *)
Definition markedPage (layout : Layout) (sectionElem : NodeRef) (onOff : bool)
    (d : Element) : Element :=
  classList_toggle "print-widget" onOff sectionElem
    (fold_left (fun d box => classList_toggle "print-hide" onOff box d)
       (filter (fun box => negb (contains box sectionElem)) layout) d).

(** The class list [prepareToPrint(onOff)] leaves on element [p], given the
    one it had and the key element the loop over the parents started from. *)
Definition printClasses (layout : Layout) (sectionElem keyElem p : NodeRef)
    (onOff : bool) (cl : list string) : list string :=
  toggleIf (properAncestor p keyElem) "print-parent" onOff
    (toggleIf (nodeRef_eqb p sectionElem) "print-widget" onOff
       (toggleIf (hiddenBox layout sectionElem p) "print-hide" onOff cl)).

Module Page.
(** A small page: the document element holds two layout boxes; the first
    holds the section to print, whose content element is also the view
    pane; the second holds another section. *)
Definition page : Element :=
  Elem ["root"]
    [ Elem ["layout_box"] [ Elem ["viewsection_content"] [ Elem ["grid"] [] ] ];
      Elem ["layout_box"] [ Elem ["viewsection_content"] [] ] ].

Definition sectionElem : NodeRef := [0; 0].
Definition layout : Layout := [[0]; [1]].

(** A view that does not render specially for printing. *)
Definition plainView : ViewInstance :=
  mkViewInstance false false (Some [0; 0]) (fun _ d => d).

(** A scrolly-based view: for printing it adds the [print-all-rows] element
    to its pane, and takes it away again afterwards. *)
Definition scrollyView : ViewInstance :=
  mkViewInstance false false (Some [0; 0])
    (fun onOff d =>
       updateElem
         (fun e =>
            if onOff
            then Elem (classList e) (children e ++ [Elem ["print-all-rows"] []])
            else Elem (classList e)
                   (filter (fun c => negb (contains_token "print-all-rows" (classList c)))
                      (children e)))
         [0; 0] d).

Definition window (debug : bool) : Window := mkWindow page [] 0 debug [].
End Page.

(* ===================================================================== *)
(** ** The DocSession class and further notions used below               *)
(* ===================================================================== *)

(** [class DocSession implements OptDocSession]: the constructor's four
    properties, the two optional public fields, and the [browserSettings]
    getter.  The active document is opaque here. *)
Module DocSession.
Record t (ActiveDoc : Type) := make {
  activeDoc : ActiveDoc;
  client : Client.t;
  fd : Z;
  authorizer : Authorizer.t;
  shouldBundleActions : option bool;
  linkId : option Z
}.
Arguments make {ActiveDoc}.
Arguments activeDoc {ActiveDoc}.
Arguments client {ActiveDoc}.
Arguments fd {ActiveDoc}.
Arguments authorizer {ActiveDoc}.
Arguments shouldBundleActions {ActiveDoc}.
Arguments linkId {ActiveDoc}.

(** [new DocSession(activeDoc, client, fd, authorizer)] *)
Definition new {ActiveDoc} (activeDoc : ActiveDoc) (client : Client.t) (fd : Z)
    (authorizer : Authorizer.t) : t ActiveDoc :=
  make activeDoc client fd authorizer None None.

(** [get browserSettings() { return this.client.browserSettings; }] *)
Definition browserSettings {ActiveDoc} (s : t ActiveDoc) : BrowserSettings :=
  Client.browserSettings (client s).
End DocSession.

(** A [DocSession] where an [OptDocSession] is expected: the fields the
    interface names are read off the object; it has no [req] and no [mode]
    property, so both read as [undefined]. *)
Definition asOptDocSession {ActiveDoc} (s : DocSession.t ActiveDoc)
    : OptDocSession :=
  {| client := Some (DocSession.client s);
     shouldBundleActions := DocSession.shouldBundleActions s;
     linkId := DocSession.linkId s;
     browserSettings := Some (DocSession.browserSettings s);
     req := None;
     mode := None;
     authorizer := Some (DocSession.authorizer s) |}.

(** The element [p] denotes exists and carries class [c]. *)
Definition hasClass (c : string) (d : Element) (p : NodeRef) : bool :=
  match classesAt p d with
  | Some cl => contains_token c cl
  | None => false
  end.

(** [r] is the start element of an upward walk, or one of its ancestors. *)
Definition onPathUp (r : NodeRef) (elem : option NodeRef) : Prop :=
  match elem with
  | Some p => contains r p = true
  | None => False
  end.

(** The three tokens [prepareToPrint] toggles. *)
Definition isPrintToken (t : string) : bool :=
  String.eqb t "print-hide" || String.eqb t "print-widget"
  || String.eqb t "print-parent".

(** The part of a class list that printing has no business with. *)
Definition otherTokens (cl : list string) : list string :=
  filter (fun t => negb (isPrintToken t)) cl.

(** No element of the page carries one of the three print tokens. *)
Definition printTokenFree (d : Element) : Prop :=
  forall p cl t, classesAt p d = Some cl -> isPrintToken t = true -> ~ In t cl.

(** A view that does not re-render for printing. *)
Definition staticView (v : ViewInstance) : Prop :=
  forall onOff d, view_prepareToPrint v onOff d = d.

(** A check of [printTokenFree] that runs. *)
Fixpoint tokenFreeb (e : Element) : bool :=
  match e with
  | Elem cl cs =>
    forallb (fun t => negb (isPrintToken t)) cl && forallb tokenFreeb cs
  end.

(** The row ids other than ['new'], in input order. *)
Definition numberedIds (rowIds : list RowId) : list Z :=
  flat_map (fun r => match r with
                     | RowNumber n => [n]
                     | RowNew => []
                     end) rowIds.

(* ===================================================================== *)
(** * Properties of the session resolvers                                *)
(* ===================================================================== *)



(** C1. When [mode] is set, [getDocSessionAccess] returns ['owners'] for
    ['nascent'] and ['system'] and ['editors'] for ['plugin'], it consults
    neither the authorizer nor the request (nor the client), and hence any
    two sessions with the same mode get the same answer. *)
Theorem getDocSessionAccess_exceptional_mode (s : OptDocSession) (m : Mode) :
  mode s = Some m ->
  outcome (getDocSessionAccess s) = Returns (mode_role m) /\
  consulted (getDocSessionAccess s) = [] /\
  (m = nascent \/ m = system -> outcome (getDocSessionAccess s) = Returns owners) /\
  (m = plugin -> outcome (getDocSessionAccess s) = Returns editors) /\
  (forall s', mode s' = Some m -> getDocSessionAccess s' = getDocSessionAccess s).
Proof.
  intros Hm.
  assert (E : forall t, mode t = Some m -> getDocSessionAccess t = ret (mode_role m)).
  { intros t Ht. unfold getDocSessionAccess. rewrite Ht.
    destruct m; reflexivity. }
  rewrite (E s Hm). repeat split.
  - intros [-> | ->]; reflexivity.
  - intros ->; reflexivity.
  - intros s' Hs'. apply E, Hs'.
Qed.

Lemma getDocSessionAccess_exceptional_mode_witness :
  outcome (getDocSessionAccess Sessions.plugin_session) = Returns editors /\
  consulted (getDocSessionAccess Sessions.plugin_session) = [].
Proof.
  destruct (getDocSessionAccess_exceptional_mode Sessions.plugin_session plugin)
    as (H1 & H2 & _); [reflexivity|].
  split; [exact H1 | exact H2].
Defined.

(** C2. [getDocSessionUserId] resolves the user id with a fixed precedence:
    the authorizer's [getUserId()] when an authorizer is present; otherwise
    [getUserId(req)] when a request is present; otherwise the client's
    cached user id when a client is present; otherwise [null].  Only the
    chosen source is consulted, and the call never throws. *)
Theorem getDocSessionUserId_precedence (getUserId : RequestWithLogin -> Z)
    (s : OptDocSession) :
  (forall a, authorizer s = Some a ->
     getDocSessionUserId getUserId s
     = mkRun [authorizer_getUserId] (Returns (Authorizer.getUserId a))) /\
  (forall r, authorizer s = None -> req s = Some r ->
     getDocSessionUserId getUserId s
     = mkRun [req_getUserId] (Returns (Some (getUserId r)))) /\
  (forall c, authorizer s = None -> req s = None -> client s = Some c ->
     getDocSessionUserId getUserId s
     = mkRun [client_getCachedUserId] (Returns (Client.getCachedUserId c))) /\
  (authorizer s = None -> req s = None -> client s = None ->
     getDocSessionUserId getUserId s = mkRun [] (Returns None)).
Proof.
  unfold getDocSessionUserId.
  repeat split; intros; repeat
    match goal with H : _ = _ |- _ => rewrite H; clear H end; reflexivity.
Qed.

Lemma getDocSessionUserId_precedence_witness :
  getDocSessionUserId Sessions.req_userId Sessions.client_only
  = mkRun [client_getCachedUserId] (Returns (Some 17%Z)).
Proof.
  destruct (getDocSessionUserId_precedence Sessions.req_userId
              Sessions.client_only) as (_ & _ & H & _).
  apply (H Sessions.alice); reflexivity.
Defined.

(** C3, as stated, fails: a session with no mode, no authorizer and no
    request but with a live client gets no role from [getDocSessionAccess];
    the call throws. *)
Lemma getDocSessionAccess_client_only_throws :
  mode Sessions.client_only = None /\
  authorizer Sessions.client_only = None /\
  req Sessions.client_only = None /\
  client Sessions.client_only = Some Sessions.alice /\
  ~ (exists role, outcome (getDocSessionAccess Sessions.client_only) = Returns role).
Proof.
  repeat split. intros [role H]. discriminate H.
Qed.

(** C3, amended.  With no exceptional mode, no authorizer and no request,
    [getDocSessionAccess] throws "could not find access information",
    whether or not a client is present; the client is never a source of
    the access role. *)
Theorem getDocSessionAccess_never_from_client (s : OptDocSession) :
  mode s = None -> authorizer s = None -> req s = None ->
  outcome (getDocSessionAccess s)
  = Throws "getDocSessionAccess could not find access information in DocSession" /\
  consulted (getDocSessionAccess s) = [].
Proof.
  intros Hm Ha Hr. unfold getDocSessionAccess.
  rewrite Hm, Ha, Hr. split; reflexivity.
Qed.

Lemma getDocSessionAccess_never_from_client_witness :
  outcome (getDocSessionAccess Sessions.client_only)
  = Throws "getDocSessionAccess could not find access information in DocSession" /\
  consulted (getDocSessionAccess Sessions.client_only) = [].
Proof.
  apply (getDocSessionAccess_never_from_client Sessions.client_only);
    reflexivity.
Defined.


(** C4. [getDocSessionAccess] throws exactly when no exceptional mode is set
    and either neither an authorizer nor a request is present, or the
    consulted source has no access; in every other case it returns a role. *)
Theorem getDocSessionAccess_throws_iff (s : OptDocSession) :
  ((exists message, outcome (getDocSessionAccess s) = Throws message) <->
   mode s = None /\
   ((authorizer s = None /\ req s = None) \/ consulted_access_missing s)) /\
  ((exists role, outcome (getDocSessionAccess s) = Returns role) <->
   ~ (mode s = None /\
      ((authorizer s = None /\ req s = None) \/ consulted_access_missing s))).
Proof.
  unfold consulted_access_missing, getDocSessionAccess.
  destruct (mode s) as [[]|] eqn:Hm; simpl.
  1-3: split; split;
    [ intros [? H]; discriminate H | intros [H _]; discriminate H
    | intros _ [H _]; discriminate H | intros _; eexists; reflexivity ].
  destruct (authorizer s) as [a|] eqn:Ha.
  - destruct a as [uid [[role|]]]; simpl; split; split.
    + intros [? H]; discriminate H.
    + intros [_ [[H _] | [(a & Ea & H) | [H _]]]]; try discriminate.
      injection Ea as <-. discriminate H.
    + intros _ [_ [[H _] | [(a & Ea & H) | [H _]]]]; try discriminate.
      injection Ea as <-. discriminate H.
    + intros _. eexists; reflexivity.
    + intros _. split; [reflexivity|]. right; left. eexists; split; reflexivity.
    + intros _. eexists; reflexivity.
    + intros [? H]; discriminate H.
    + intros H; exfalso; apply H. split; [reflexivity|].
      right; left. eexists; split; reflexivity.
  - destruct (req s) as [r|] eqn:Hr.
    + destruct r as [uid [[[role|]]|]]; simpl; split; split.
      * intros [? H]; discriminate H.
      * intros [_ [[_ H] | [(a & Ea & _) | [_ (r & Er & H)]]]]; try discriminate.
        injection Er as <-. simpl in H.
        destruct H as [H | (d & Ed & H)]; [discriminate|].
        injection Ed as <-. discriminate H.
      * intros _ [_ [[_ H] | [(a & Ea & _) | [_ (r & Er & H)]]]]; try discriminate.
        injection Er as <-. simpl in H.
        destruct H as [H | (d & Ed & H)]; [discriminate|].
        injection Ed as <-. discriminate H.
      * intros _. eexists; reflexivity.
      * intros _. split; [reflexivity|]. right; right. split; [reflexivity|].
        eexists; split; [reflexivity|]. right. eexists; split; reflexivity.
      * intros _. eexists; reflexivity.
      * intros [? H]; discriminate H.
      * intros H; exfalso; apply H. split; [reflexivity|]. right; right.
        split; [reflexivity|]. eexists; split; [reflexivity|].
        right. eexists; split; reflexivity.
      * intros _. split; [reflexivity|]. right; right. split; [reflexivity|].
        eexists; split; [reflexivity|]. left; reflexivity.
      * intros _. eexists; reflexivity.
      * intros [? H]; discriminate H.
      * intros H; exfalso; apply H. split; [reflexivity|]. right; right.
        split; [reflexivity|]. eexists; split; [reflexivity|]. left; reflexivity.
    + simpl; split; split.
      * intros _. split; [reflexivity|]. left; split; reflexivity.
      * intros _. eexists; reflexivity.
      * intros [? H]; discriminate H.
      * intros H; exfalso; apply H. split; [reflexivity|]. left; split; reflexivity.
Qed.

(** C8. [makeOptDocSession(null)] returns a session with [client] null and
    [browserSettings] undefined, and on every session without client,
    authorizer and request (this one included) [getDocSessionUserId]
    returns [null] without throwing and without consulting anything. *)
Theorem makeOptDocSession_null_client (getUserId : RequestWithLogin -> Z) :
  client (makeOptDocSession None None) = None /\
  browserSettings (makeOptDocSession None None) = None /\
  getDocSessionUserId getUserId (makeOptDocSession None None) = ret None /\
  (forall s, client s = None -> authorizer s = None -> req s = None ->
     getDocSessionUserId getUserId s = ret None).
Proof.
  repeat split.
  intros s Hc Ha Hr. unfold getDocSessionUserId. rewrite Ha, Hr, Hc.
  reflexivity.
Qed.

Lemma makeOptDocSession_null_client_witness :
  getDocSessionUserId Sessions.req_userId
    (mkOptDocSession None (Some true) (Some 3%Z) (Some Sessions.settings)
       None (Some system) None)
  = ret None.
Proof.
  apply (makeOptDocSession_null_client Sessions.req_userId); reflexivity.
Defined.

(** C10. [makeOptDocSession] takes [browserSettings] from the client when a
    client is given and [browserSettings] is not; a given [browserSettings]
    is used as it is; and [makeExceptionalDocSession] returns that session
    with [mode] set to its argument and [req] set to [options.req], every
    other field being the one [makeOptDocSession] produced. *)
Theorem makeOptDocSession_browserSettings :
  (forall c, browserSettings (makeOptDocSession (Some c) None)
             = Some (Client.browserSettings c)) /\
  (forall c b, browserSettings (makeOptDocSession c (Some b)) = Some b) /\
  (forall c b, client (makeOptDocSession c b) = c) /\
  (forall m o,
     let base := makeOptDocSession (opt_client o) (opt_browserSettings o) in
     let s := makeExceptionalDocSession m o in
     mode s = Some m /\ req s = opt_req o /\
     client s = client base /\
     browserSettings s = browserSettings base /\
     shouldBundleActions s = shouldBundleActions base /\
     linkId s = linkId base /\
     authorizer s = authorizer base).
Proof.
  repeat split.
  intros [c|] b; reflexivity.
Qed.


(* ===================================================================== *)
(** * Properties of renderAllRows                                        *)
(* ===================================================================== *)

Section RenderAllRowsFacts.

Context {DataTableModel RenderedRow : Type}.
Variable outerHTML : RenderedRow -> string.
Variable renderRow : DataRowModel DataTableModel -> RenderedRow.

(** The loop of [renderAllRows], started at any index with any locals:
    the rows rendered so far are kept and the remaining ones appended. *)
Lemma renderAllRows_loop (t : DataTableModel) (rowIds : list RowId) :
  forall (start : nat) (locals : Locals DataTableModel),
    tableModel (rowModel locals) = t ->
    disposed (rowModel locals) = false ->
    html (forEach (renderOne outerHTML renderRow) rowIds start locals)
    = (html locals
       ++ map (fun ir => outerHTML (renderRow (assignedTo t ir)))
            (renderedRows rowIds start))%list.
Proof.
  induction rowIds as [|rowId rest IH]; intros start locals Ht Hd.
  - simpl. rewrite app_nil_r. reflexivity.
  - simpl forEach. destruct rowId as [n|].
    + rewrite IH by (simpl; assumption).
      unfold renderedRows. simpl. rewrite <- app_assoc. simpl.
      unfold assignedTo, assign, set_index. simpl. rewrite Ht, Hd.
      reflexivity.
    + rewrite IH by assumption. reflexivity.
Qed.

(** The element [renderAllRows] returns, with the markup it assigns. *)
Lemma renderAllRows_assigned (t : DataTableModel) (rowIds : list RowId) :
  renderAllRows outerHTML t rowIds renderRow
  = mkPrintAllRows "div" ["print-all-rows"]
      (String.concat newline
         (map (fun ir => outerHTML (renderRow (assignedTo t ir)))
            (renderedRows rowIds 0))).
Proof.
  unfold renderAllRows. f_equal. f_equal.
  rewrite (renderAllRows_loop t); reflexivity.
Qed.

(** Reading [innerHTML] back is the platform's business; the statement
    holds for whatever function of the assigned markup it is. *)
Variable readBack : string -> string.

(** C7, amended.  [renderAllRows] returns a [div] of class [print-all-rows]
    to whose [innerHTML] it assigns the newline-joined [outerHTML] of
    [renderRow] applied to the floating row model pointed at each row id, in
    input order, the ['new'] row ids contributing nothing.  The [innerHTML]
    of the returned [div] is what the platform reads back from that markup;
    it is the joined string itself whenever that string survives being
    parsed as the content of a [div]. *)
Theorem renderAllRows_innerHTML_read_back (t : DataTableModel)
    (rowIds : list RowId) :
  let joined :=
    String.concat newline
      (map (fun ir => outerHTML (renderRow (assignedTo t ir)))
         (renderedRows rowIds 0)) in
  let result := renderAllRows outerHTML t rowIds renderRow in
  tagName result = "div" /\
  className result = ["print-all-rows"] /\
  assignedHTML result = joined /\
  innerHTML readBack result = readBack joined /\
  (readBack joined = joined -> innerHTML readBack result = joined).
Proof.
  intros joined result. unfold result, innerHTML.
  rewrite renderAllRows_assigned. cbn [tagName className assignedHTML].
  fold joined. repeat split. intros H. exact H.
Qed.

End RenderAllRowsFacts.

(** C7, as stated, fails for rows rendered as table rows: parsed as the
    content of a [div], the [tr] and [td] tags are dropped, and the
    [innerHTML] of the result is the bare cell text, not the joined
    [outerHTML] of the rows. *)
Lemma renderAllRows_table_rows_lose_tags :
  let renderRow := fun _ : DataRowModel unit => "<tr><td>cell</td></tr>" in
  let rowIds := [RowNumber 1; RowNumber 2] in
  let result := renderAllRows (fun html : string => html) tt rowIds renderRow in
  String.concat newline
    (map (fun ir => renderRow (assignedTo tt ir)) (renderedRows rowIds 0))
  = ("<tr><td>cell</td></tr>" ++ newline ++ "<tr><td>cell</td></tr>")%string /\
  innerHTML divInnerHTML result = ("cell" ++ newline ++ "cell")%string /\
  innerHTML divInnerHTML result
  <> String.concat newline
       (map (fun ir => renderRow (assignedTo tt ir)) (renderedRows rowIds 0)).
Proof.
  vm_compute. repeat split. discriminate.
Qed.

Lemma renderAllRows_innerHTML_read_back_witness :
  innerHTML divInnerHTML
    (renderAllRows (fun html : string => html) tt
       [RowNumber 1; RowNew; RowNumber 2]
       (fun r : DataRowModel unit =>
          match rowId r with
          | Some 1%Z => "<div><span>one</span></div>"
          | _ => "<div>two</div>"
          end))
  = ("<div><span>one</span></div>" ++ newline ++ "<div>two</div>")%string.
Proof.
  destruct (renderAllRows_innerHTML_read_back (fun html : string => html)
              (fun r : DataRowModel unit =>
                 match rowId r with
                 | Some 1%Z => "<div><span>one</span></div>"
                 | _ => "<div>two</div>"
                 end)
              divInnerHTML tt [RowNumber 1; RowNew; RowNumber 2])
    as (_ & _ & _ & _ & H).
  apply H. reflexivity.
Defined.

(** ['new'] among the row ids changes nothing but the positions of the rows
    after it. *)
Example renderedRows_skips_new :
  renderedRows [RowNumber 4; RowNew; RowNumber 2]%Z 0 = [(0, 4%Z); (2, 2%Z)].
Proof. reflexivity. Qed.

(** A run on three row ids, the middle one ['new']: two rows are rendered,
    the second with its position in the input, 2. *)
Example renderAllRows_three_rows :
  renderAllRows (fun html : string => html) tt
    [RowNumber 4; RowNew; RowNumber 2]%Z
    (fun r => match _index r, rowId r with
              | Some 0, Some 4%Z => "<div>first</div>"
              | Some 2, Some 2%Z => "<div>third</div>"
              | _, _ => "<div>other</div>"
              end)
  = mkPrintAllRows "div" ["print-all-rows"]
      ("<div>first</div>" ++ newline ++ "<div>third</div>")%string.
Proof. reflexivity. Qed.

(* ===================================================================== *)
(** * The page: class lists under updates                                *)
(* ===================================================================== *)

Lemma nodeRef_eqb_eq (a b : NodeRef) : nodeRef_eqb a b = true <-> a = b.
Proof.
  revert b. induction a as [|i a IH]; intros [|j b]; simpl;
    try (split; [discriminate | discriminate]); try tauto.
  rewrite andb_true_iff, Nat.eqb_eq, IH. split.
  - intros [-> ->]; reflexivity.
  - intros E; injection E; auto.
Qed.

Lemma nodeRef_eqb_refl (a : NodeRef) : nodeRef_eqb a a = true.
Proof. apply nodeRef_eqb_eq; reflexivity. Qed.

Lemma nth_error_mapNth {A} (f : A -> A) (l : list A) :
  forall i j, nth_error (mapNth f j l) i
              = if Nat.eqb i j then option_map f (nth_error l i)
                else nth_error l i.
Proof.
  induction l as [|x l IH]; intros [|i] [|j]; simpl; try reflexivity.
  - destruct (Nat.eqb i j); reflexivity.
  - apply IH.
Qed.

Lemma classesAt_reclass (g : list string -> list string) (q : NodeRef) :
  forall p d,
    classesAt p (updateElem (reclass g) q d)
    = if nodeRef_eqb p q then option_map g (classesAt p d) else classesAt p d.
Proof.
  induction q as [|j q IH]; intros [|i p] d; try reflexivity.
  unfold classesAt in *. cbn [updateElem getElem children nodeRef_eqb].
  rewrite nth_error_mapNth.
  destruct (Nat.eqb_spec i j) as [->|]; simpl; [|reflexivity].
  destruct (nth_error (children d) j) as [c|]; simpl.
  - apply IH.
  - destruct (nodeRef_eqb p q); reflexivity.
Qed.

Lemma classesAt_classList_toggle token onOff q p d :
  classesAt p (classList_toggle token onOff q d)
  = if nodeRef_eqb p q then option_map (toggle token onOff) (classesAt p d)
    else classesAt p d.
Proof. apply (classesAt_reclass (toggle token onOff)). Qed.

Lemma contains_token_app token cl cl' :
  contains_token token (cl ++ cl')
  = contains_token token cl || contains_token token cl'.
Proof. apply existsb_app. Qed.

Lemma toggle_idempotent token onOff cl :
  toggle token onOff (toggle token onOff cl) = toggle token onOff cl.
Proof.
  unfold toggle. destruct onOff.
  - destruct (contains_token token cl) eqn:E.
    + rewrite E. reflexivity.
    + rewrite contains_token_app. simpl. rewrite String.eqb_refl.
      rewrite orb_true_r. reflexivity.
  - induction cl as [|t cl IH]; simpl; [reflexivity|].
    destruct (String.eqb t token) eqn:E; simpl; [exact IH|].
    rewrite E. simpl. f_equal. exact IH.
Qed.

Lemma toggleIf_absorb b b' token onOff cl :
  toggleIf b token onOff (toggleIf b' token onOff cl)
  = toggleIf (b' || b) token onOff cl.
Proof.
  destruct b, b'; simpl; try reflexivity. apply toggle_idempotent.
Qed.

Lemma option_map_id {A} (o : option A) : option_map (fun x => x) o = o.
Proof. destruct o; reflexivity. Qed.

(** Toggling one token on each element of a list of references. *)
Lemma classesAt_toggle_each token onOff (refs : list NodeRef) :
  forall d p,
    classesAt p (fold_left (fun d q => classList_toggle token onOff q d) refs d)
    = option_map (toggleIf (existsb (nodeRef_eqb p) refs) token onOff)
        (classesAt p d).
Proof.
  induction refs as [|q refs IH]; intros d p; simpl.
  - destruct (classesAt p d); reflexivity.
  - rewrite IH, classesAt_classList_toggle.
    destruct (nodeRef_eqb p q); simpl; [|reflexivity].
    destruct (classesAt p d) as [cl|]; simpl; [|reflexivity].
    f_equal. apply (toggleIf_absorb _ true).
Qed.

(* ===================================================================== *)
(** * Ancestors                                                          *)
(* ===================================================================== *)

Lemma contains_root (p : NodeRef) : contains p [] = nodeRef_eqb p [].
Proof. destruct p; reflexivity. Qed.

Lemma contains_length (a b : NodeRef) :
  contains a b = true -> List.length a <= List.length b.
Proof.
  revert b. induction a as [|i a IH]; intros [|j b]; simpl; intros H;
    try lia; try discriminate.
  apply andb_true_iff in H. destruct H as [_ H]. apply IH in H. lia.
Qed.

(** [a] contains [k] exactly when it is [k] or contains [k]'s parent. *)
Lemma contains_parentElement (k : NodeRef) :
  forall p, contains p k
            = nodeRef_eqb p k
              || match parentElement k with
                 | Some k' => contains p k'
                 | None => false
                 end.
Proof.
  induction k as [|j k IH]; intros [|i p]; try reflexivity.
  unfold parentElement. destruct k as [|j' k].
  - simpl. rewrite contains_root, orb_false_r. reflexivity.
  - change (removelast (j :: j' :: k)) with (j :: removelast (j' :: k)).
    cbn [contains nodeRef_eqb]. rewrite (IH p). unfold parentElement.
    destruct (Nat.eqb i j); reflexivity.
Qed.

Lemma properAncestor_parentElement (k p : NodeRef) :
  match parentElement k with
  | Some k' => contains p k'
  | None => false
  end = properAncestor p k.
Proof.
  unfold properAncestor. rewrite (contains_parentElement k p).
  destruct (nodeRef_eqb p k) eqn:E; simpl.
  - apply nodeRef_eqb_eq in E. subst p.
    destruct k as [|j k]; [reflexivity|]. unfold parentElement.
    destruct (contains (j :: k) (removelast (j :: k))) eqn:C; [|reflexivity].
    apply contains_length in C. rewrite removelast_firstn_len in C.
    rewrite length_firstn in C. simpl List.length in C. lia.
  - rewrite andb_true_r. reflexivity.
Qed.

Lemma contains_app (a q : NodeRef) : contains a (a ++ q) = true.
Proof.
  induction a as [|i a IH]; simpl; [reflexivity|].
  rewrite Nat.eqb_refl. exact IH.
Qed.

Lemma contains_trans (a b c : NodeRef) :
  contains a b = true -> contains b c = true -> contains a c = true.
Proof.
  revert b c. induction a as [|i a IH]; intros [|j b] [|k c]; simpl;
    try reflexivity; try discriminate.
  rewrite !andb_true_iff, !Nat.eqb_eq. intros [-> H1] [-> H2].
  split; [reflexivity | eapply IH; eassumption].
Qed.

(** The loop toggles the token on its start element and on every ancestor
    of it, and on nothing else. *)
Lemma classesAt_toggleUpwards token onOff (elem : option NodeRef) (d : Element) :
  forall p,
    classesAt p (toggleUpwards token onOff elem d)
    = option_map
        (toggleIf match elem with
                  | Some k => contains p k
                  | None => false
                  end token onOff)
        (classesAt p d).
Proof.
  funelim (toggleUpwards token onOff elem d); intros q.
  - match goal with
    | IH : forall _, classesAt _ _ = _ |- _ => rewrite IH
    end.
    rewrite classesAt_classList_toggle, (contains_parentElement p q).
    destruct (nodeRef_eqb q p); simpl; [|reflexivity].
    destruct (classesAt q d) as [cl|]; simpl; [|reflexivity].
    f_equal. apply (toggleIf_absorb _ true).
  - destruct (classesAt q d); reflexivity.
Qed.

(* ===================================================================== *)
(** * querySelector under class updates                                  *)
(* ===================================================================== *)

Lemma firstAmong_mapNth (search : Element -> option NodeRef)
    (h : Element -> Element) :
  (forall x, search (h x) = search x) ->
  forall cs j k, firstAmong search k (mapNth h j cs) = firstAmong search k cs.
Proof.
  intros Hh. induction cs as [|x cs IH]; intros [|j] k; simpl;
    try reflexivity.
  - rewrite Hh. reflexivity.
  - rewrite IH. reflexivity.
Qed.

Section OtherToken.

Variable c : string.
Variable g : list string -> list string.
Hypothesis g_keeps_c : forall cl, contains_token c (g cl) = contains_token c cl.

Lemma firstMatch_reclass (q : NodeRef) :
  forall e, firstMatch c (updateElem (reclass g) q e) = firstMatch c e.
Proof.
  induction q as [|j q IH]; intros [cl cs]; simpl.
  - rewrite g_keeps_c. reflexivity.
  - destruct (contains_token c cl); [reflexivity|].
    apply firstAmong_mapNth, IH.
Qed.

Lemma descendants_reclass (q : NodeRef) :
  forall s d,
    option_map (fun e => firstAmong (firstMatch c) 0 (children e))
      (getElem s (updateElem (reclass g) q d))
    = option_map (fun e => firstAmong (firstMatch c) 0 (children e))
        (getElem s d).
Proof.
  induction q as [|j q IH]; intros [|i s] d; try reflexivity.
  - simpl. f_equal. apply firstAmong_mapNth, firstMatch_reclass.
  - cbn [updateElem getElem children]. rewrite nth_error_mapNth.
    destruct (Nat.eqb i j); [|reflexivity].
    destruct (nth_error (children d) i) as [x|]; simpl; [apply IH|reflexivity].
Qed.

Lemma querySelector_reclass (q s : NodeRef) (d : Element) :
  querySelector c s (updateElem (reclass g) q d) = querySelector c s d.
Proof.
  unfold querySelector.
  pose proof (descendants_reclass q s d) as H.
  destruct (getElem s (updateElem (reclass g) q d)),
           (getElem s d); simpl in H; try discriminate; [|reflexivity].
  injection H as ->. reflexivity.
Qed.

End OtherToken.

Lemma toggle_keeps_other (c token : string) (onOff : bool) :
  c <> token ->
  forall cl, contains_token c (toggle token onOff cl) = contains_token c cl.
Proof.
  intros Hne cl. unfold toggle. destruct onOff.
  - destruct (contains_token token cl); [reflexivity|].
    rewrite contains_token_app. simpl.
    destruct (String.eqb_spec c token); [contradiction|].
    rewrite !orb_false_r. reflexivity.
  - induction cl as [|t cl IH]; simpl; [reflexivity|].
    destruct (String.eqb_spec t token) as [->|]; simpl.
    + destruct (String.eqb_spec c token); [contradiction|]. exact IH.
    + rewrite IH. reflexivity.
Qed.

Lemma querySelector_classList_toggle c token onOff q s d :
  c <> token ->
  querySelector c s (classList_toggle token onOff q d) = querySelector c s d.
Proof.
  intros Hne.
  apply (querySelector_reclass c (toggle token onOff)
           (toggle_keeps_other c token onOff Hne)).
Qed.

Lemma querySelector_toggle_each c token onOff s (refs : list NodeRef) :
  c <> token ->
  forall d,
    querySelector c s
      (fold_left (fun d q => classList_toggle token onOff q d) refs d)
    = querySelector c s d.
Proof.
  intros Hne. induction refs as [|q refs IH]; intros d; simpl;
    [reflexivity|].
  rewrite IH. apply querySelector_classList_toggle, Hne.
Qed.

Lemma querySelector_toggleUpwards c token onOff s elem d :
  c <> token ->
  querySelector c s (toggleUpwards token onOff elem d) = querySelector c s d.
Proof.
  intros Hne. funelim (toggleUpwards token onOff elem d).
  - match goal with
    | IH : forall _ _, _ -> querySelector _ _ _ = _ |- _ => rewrite (IH c s Hne)
    end.
    apply querySelector_classList_toggle, Hne.
  - reflexivity.
Qed.

(** The element found by [querySelector] is a descendant of its start. *)
Lemma querySelector_below c s d k :
  querySelector c s d = Some k -> contains s k = true.
Proof.
  unfold querySelector. destruct (getElem s d) as [e|]; [|discriminate].
  destruct (firstAmong (firstMatch c) 0 (children e)) as [q|]; [|discriminate].
  simpl. intros E. injection E as <-. apply contains_app.
Qed.

Lemma keyElemOf_below (sectionElem : NodeRef) (d : Element) :
  contains sectionElem (keyElemOf sectionElem d) = true.
Proof.
  unfold keyElemOf.
  destruct (querySelector "print-all-rows" sectionElem d) as [k|] eqn:E.
  - eapply querySelector_below, E.
  - rewrite <- (app_nil_r sectionElem) at 2. apply contains_app.
Qed.

(* ===================================================================== *)
(** * prepareToPrint                                                     *)
(* ===================================================================== *)

Lemma forEachBox_hide (sectionElem : NodeRef) (onOff : bool) (layout : Layout) :
  forall w,
    forEachBox layout
      (fun box w =>
         if negb (contains box sectionElem)
         then on_document (classList_toggle "print-hide" onOff box) w
         else w) w
    = on_document
        (fold_left (fun d box => classList_toggle "print-hide" onOff box d)
           (filter (fun box => negb (contains box sectionElem)) layout)) w.
Proof.
  unfold forEachBox. induction layout as [|box layout IH]; intros w; simpl.
  - destruct w; reflexivity.
  - rewrite IH. destruct (negb (contains box sectionElem)); reflexivity.
Qed.

(** [prepareToPrint] as a whole: the page it leaves, and the one call it
    makes on the view instance; listeners and flags are untouched. *)
Lemma prepareToPrint_window layout sectionElem v onOff w :
  let d := view_prepareToPrint v onOff
             (markedPage layout sectionElem onOff (document w)) in
  prepareToPrint layout sectionElem v onOff w
  = mkWindow
      (toggleUpwards "print-parent" onOff
         (parentElement (keyElemOf sectionElem d)) d)
      (listeners w) (nextSub w) (debugPrinting w)
      (observed w ++ [ViewPrepareToPrint onOff]).
Proof.
  unfold prepareToPrint. rewrite forEachBox_hide. reflexivity.
Qed.

Lemma keyElemOf_toggleUpwards sectionElem onOff elem d :
  keyElemOf sectionElem (toggleUpwards "print-parent" onOff elem d)
  = keyElemOf sectionElem d.
Proof.
  unfold keyElemOf. rewrite querySelector_toggleUpwards; [reflexivity|].
  discriminate.
Qed.

(** The key element the loop started from is the one found in the page
    that [prepareToPrint] leaves. *)
Lemma prepareToPrint_keyElem layout sectionElem v onOff w :
  keyElemOf sectionElem (document (prepareToPrint layout sectionElem v onOff w))
  = keyElemOf sectionElem
      (view_prepareToPrint v onOff
         (markedPage layout sectionElem onOff (document w))).
Proof.
  rewrite prepareToPrint_window. simpl. apply keyElemOf_toggleUpwards.
Qed.

Lemma existsb_filter_ref (f : NodeRef -> bool) (p : NodeRef) (l : list NodeRef) :
  existsb (nodeRef_eqb p) (filter f l) = existsb (nodeRef_eqb p) l && f p.
Proof.
  induction l as [|q l IH]; simpl; [reflexivity|].
  destruct (f q) eqn:F; simpl; rewrite IH;
    destruct (nodeRef_eqb p q) eqn:E; simpl; try reflexivity;
    apply nodeRef_eqb_eq in E; subst q; rewrite F;
    [reflexivity | apply andb_false_r].
Qed.

Lemma classesAt_markedPage layout sectionElem onOff d p :
  classesAt p (markedPage layout sectionElem onOff d)
  = option_map
      (fun cl => toggleIf (nodeRef_eqb p sectionElem) "print-widget" onOff
                   (toggleIf (hiddenBox layout sectionElem p) "print-hide" onOff cl))
      (classesAt p d).
Proof.
  unfold markedPage. rewrite classesAt_classList_toggle, classesAt_toggle_each.
  rewrite existsb_filter_ref. fold (hiddenBox layout sectionElem p).
  destruct (nodeRef_eqb p sectionElem), (classesAt p d); reflexivity.
Qed.

(** The class list of every element after [prepareToPrint(onOff)], for a
    view that leaves class lists alone. *)
Lemma prepareToPrint_classes layout sectionElem v onOff w p cl :
  view_keeps_classes v onOff ->
  classesAt p (document w) = Some cl ->
  classesAt p (document (prepareToPrint layout sectionElem v onOff w))
  = Some (printClasses layout sectionElem
            (keyElemOf sectionElem
               (document (prepareToPrint layout sectionElem v onOff w)))
            p onOff cl).
Proof.
  intros Hv Hcl. rewrite prepareToPrint_keyElem.
  rewrite prepareToPrint_window. simpl.
  rewrite classesAt_toggleUpwards, properAncestor_parentElement.
  erewrite Hv; [reflexivity|].
  rewrite classesAt_markedPage, Hcl. reflexivity.
Qed.

Lemma contains_token_In token cl : contains_token token cl = true <-> In token cl.
Proof.
  unfold contains_token. rewrite existsb_exists. split.
  - intros (x & Hx & E). apply String.eqb_eq in E. subst x. exact Hx.
  - intros H. exists token. split; [exact H | apply String.eqb_refl].
Qed.

Lemma In_toggle_true x token cl :
  In x (toggle token true cl) <-> x = token \/ In x cl.
Proof.
  unfold toggle. destruct (contains_token token cl) eqn:E.
  - apply contains_token_In in E. split; [tauto|]. intros [->|H]; assumption.
  - rewrite in_app_iff. simpl. split; intros H; intuition congruence.
Qed.

Lemma In_toggle_same token cl : In token (toggle token true cl).
Proof. apply In_toggle_true. left; reflexivity. Qed.

Lemma In_toggle_mono x token cl : In x cl -> In x (toggle token true cl).
Proof. intros H. apply In_toggle_true. right; exact H. Qed.

Lemma hiddenBox_spec layout sectionElem p :
  hiddenBox layout sectionElem p = true
  <-> In p layout /\ contains p sectionElem = false.
Proof.
  unfold hiddenBox. rewrite andb_true_iff, negb_true_iff, existsb_exists.
  split.
  - intros [(q & Hq & E) H]. apply nodeRef_eqb_eq in E. subst q. tauto.
  - intros [Hin H]. split; [|exact H]. exists p. split; [exact Hin|].
    apply nodeRef_eqb_refl.
Qed.

Lemma contains_antisym (a b : NodeRef) :
  contains a b = true -> contains b a = true -> a = b.
Proof.
  revert b. induction a as [|i a IH]; intros [|j b]; simpl;
    try reflexivity; try discriminate.
  rewrite !andb_true_iff, !Nat.eqb_eq. intros [-> H1] [_ H2].
  f_equal. apply IH; assumption.
Qed.

(** A box that contains the section element is the section element or a
    proper ancestor of the key element. *)
Lemma containing_box_marked sectionElem keyElem p :
  contains p sectionElem = true -> contains sectionElem keyElem = true ->
  p = sectionElem \/ properAncestor p keyElem = true.
Proof.
  intros Hps Hsk. unfold properAncestor.
  rewrite (contains_trans _ _ _ Hps Hsk). simpl.
  destruct (nodeRef_eqb p keyElem) eqn:E; [left | right; reflexivity].
  apply nodeRef_eqb_eq in E. subst keyElem.
  apply contains_antisym; assumption.
Qed.

(** Appending children to an element changes no class list. *)
Lemma classesAt_append_children (extra : list Element) (q : NodeRef) :
  forall p d cl,
    classesAt p d = Some cl ->
    classesAt p
      (updateElem (fun e => Elem (classList e) (children e ++ extra)) q d)
    = Some cl.
Proof.
  unfold classesAt.
  induction q as [|j q IH]; intros [|i p] d cl H; try exact H.
  - cbn [updateElem getElem children] in *.
    destruct (nth_error (children d) i) as [c|] eqn:E; [|discriminate].
    rewrite nth_error_app1 by (apply nth_error_Some; congruence).
    rewrite E. exact H.
  - cbn [updateElem getElem children] in *. rewrite nth_error_mapNth.
    destruct (Nat.eqb i j); [|exact H].
    destruct (nth_error (children d) i) as [c|]; [|discriminate].
    simpl. apply IH, H.
Qed.

Lemma scrollyView_keeps_classes : view_keeps_classes Page.scrollyView true.
Proof.
  intros d p cl H.
  exact (classesAt_append_children [Elem ["print-all-rows"] []] [0; 0] p d cl H).
Qed.

(** C6, as stated, fails in its last part: a layout box that contains the
    section element does not keep its class list; it is an ancestor of the
    key element and receives [print-parent]. *)
Lemma prepareToPrint_containing_box_changes :
  let w := Page.window false in
  let w' := prepareToPrint Page.layout Page.sectionElem Page.plainView true w in
  In [0] Page.layout /\
  contains [0] Page.sectionElem = true /\
  classesAt [0] (document w) = Some ["layout_box"] /\
  classesAt [0] (document w') = Some ["layout_box"; "print-parent"] /\
  classesAt [0] (document w') <> classesAt [0] (document w).
Proof.
  vm_compute. repeat split; try (left; reflexivity). discriminate.
Qed.

Lemma toggle_true_fixed token cl : toggle token true cl = cl <-> In token cl.
Proof.
  unfold toggle. destruct (contains_token token cl) eqn:E.
  - apply contains_token_In in E. tauto.
  - split.
    + intros H. apply (f_equal (@List.length string)) in H.
      rewrite length_app in H. simpl in H. lia.
    + intros H. apply contains_token_In in H. congruence.
Qed.

(** C6, amended.  When [prepareToPrint(true)] runs, exactly the layout
    boxes that do not contain the section element receive [print-hide] and
    the section element receives [print-widget]: that is the page handed to
    the view instance.  Then, in the page as the view instance leaves it,
    every proper ancestor of the key element receives [print-parent], and no
    other class list is touched.  A layout box that contains the section
    element never receives [print-hide]; it is the section element or a
    proper ancestor of the key element, so it receives [print-widget] or
    [print-parent], and its class list is left unchanged only if it carried
    that token already. *)
Theorem prepareToPrint_true_classes layout sectionElem v w :
  let handed := markedPage layout sectionElem true (document w) in
  let left := view_prepareToPrint v true handed in
  let w' := prepareToPrint layout sectionElem v true w in
  let keyElem := keyElemOf sectionElem (document w') in
  keyElem = keyElemOf sectionElem left /\
  (forall p cl,
     classesAt p (document w) = Some cl ->
     exists cl1,
       classesAt p handed = Some cl1 /\
       cl1 = toggleIf (nodeRef_eqb p sectionElem) "print-widget" true
               (toggleIf (hiddenBox layout sectionElem p) "print-hide" true cl) /\
       (In p layout -> contains p sectionElem = false -> In "print-hide" cl1) /\
       (~ (In p layout /\ contains p sectionElem = false) ->
          (In "print-hide" cl1 <-> In "print-hide" cl)) /\
       (p = sectionElem -> In "print-widget" cl1) /\
       (In p layout -> contains p sectionElem = true ->
          cl1 = toggleIf (nodeRef_eqb p sectionElem) "print-widget" true cl /\
          (cl1 = cl <-> (p = sectionElem -> In "print-widget" cl)))) /\
  (forall p cl3,
     classesAt p left = Some cl3 ->
     exists cl',
       classesAt p (document w') = Some cl' /\
       cl' = toggleIf (properAncestor p keyElem) "print-parent" true cl3 /\
       (properAncestor p keyElem = true -> In "print-parent" cl') /\
       (cl' = cl3 <->
        (properAncestor p keyElem = true -> In "print-parent" cl3))) /\
  (forall p cl',
     classesAt p (document w') = Some cl' ->
     properAncestor p keyElem = true -> In "print-parent" cl') /\
  (forall p,
     In p layout -> contains p sectionElem = true ->
     p = sectionElem \/ properAncestor p keyElem = true).
Proof.
  intros handed left w' keyElem.
  assert (Hkey : keyElem = keyElemOf sectionElem left)
    by apply prepareToPrint_keyElem.
  assert (Hfinal : forall p,
            classesAt p (document w')
            = option_map (toggleIf (properAncestor p keyElem) "print-parent" true)
                (classesAt p left)).
  { intros p. rewrite Hkey. unfold w'. rewrite prepareToPrint_window.
    cbn [document].
    rewrite classesAt_toggleUpwards, properAncestor_parentElement.
    reflexivity. }
  refine (conj Hkey (conj _ (conj _ (conj _ _)))).
  - intros p cl Hcl. eexists. split.
    { unfold handed. rewrite classesAt_markedPage, Hcl. reflexivity. }
    split; [reflexivity|]. unfold toggleIf.
    refine (conj _ (conj _ (conj _ _))).
    + intros Hin Hc.
      assert (Hh : hiddenBox layout sectionElem p = true)
        by (apply hiddenBox_spec; tauto).
      rewrite Hh. destruct (nodeRef_eqb p sectionElem);
        repeat first [apply In_toggle_same | apply In_toggle_mono].
    + intros Hn.
      destruct (hiddenBox layout sectionElem p) eqn:Hh;
        [apply hiddenBox_spec in Hh; contradiction|].
      destruct (nodeRef_eqb p sectionElem);
        rewrite ?In_toggle_true; intuition discriminate.
    + intros ->. rewrite nodeRef_eqb_refl. apply In_toggle_same.
    + intros Hin Hc.
      assert (Hh : hiddenBox layout sectionElem p = false).
      { unfold hiddenBox. rewrite Hc. apply andb_false_r. }
      rewrite Hh. split; [reflexivity|].
      destruct (nodeRef_eqb p sectionElem) eqn:E.
      * rewrite toggle_true_fixed. apply nodeRef_eqb_eq in E. tauto.
      * split; [|reflexivity]. intros _ ->.
        rewrite nodeRef_eqb_refl in E. discriminate E.
  - intros p cl3 Hcl3. eexists. split.
    { rewrite Hfinal, Hcl3. reflexivity. }
    split; [reflexivity|]. unfold toggleIf.
    destruct (properAncestor p keyElem).
    + split; [intros _; apply In_toggle_same|].
      rewrite toggle_true_fixed. tauto.
    + split; [discriminate|]. split; [discriminate | reflexivity].
  - intros p cl' Hcl' Hp. rewrite Hfinal, Hp in Hcl'.
    destruct (classesAt p left) as [cl3|]; [|discriminate].
    injection Hcl' as <-. apply In_toggle_same.
  - intros p Hin Hc. apply containing_box_marked; [exact Hc|].
    apply keyElemOf_below.
Qed.

Lemma prepareToPrint_true_classes_witness :
  let w := Page.window false in
  let w' := prepareToPrint Page.layout Page.sectionElem Page.scrollyView true w in
  exists cl',
    classesAt [0] (document w') = Some cl' /\ In "print-parent" cl'.
Proof.
  destruct (prepareToPrint_true_classes Page.layout Page.sectionElem
              Page.scrollyView (Page.window false))
    as (_ & _ & H & _).
  destruct (H [0] ["layout_box"] eq_refl) as (cl' & H1 & _ & H2 & _).
  exists cl'. split; [exact H1 | apply H2; reflexivity].
Defined.

(* ===================================================================== *)
(** * printViewSection                                                   *)
(* ===================================================================== *)

Lemma prepareToPrint_listeners layout sectionElem v onOff w :
  listeners (prepareToPrint layout sectionElem v onOff w) = listeners w.
Proof. rewrite prepareToPrint_window. reflexivity. Qed.

Lemma prepareToPrint_debugPrinting layout sectionElem v onOff w :
  debugPrinting (prepareToPrint layout sectionElem v onOff w) = debugPrinting w.
Proof. rewrite prepareToPrint_window. reflexivity. Qed.

(** [prepareToPrint(onOff)] calls the view's [prepareToPrint(onOff)] once,
    and observably does nothing else. *)
Lemma prepareToPrint_observed layout sectionElem v onOff w :
  observed (prepareToPrint layout sectionElem v onOff w)
  = observed w ++ [ViewPrepareToPrint onOff].
Proof. rewrite prepareToPrint_window. reflexivity. Qed.

(** The page [prepareToPrint] leaves depends on the page alone. *)
Lemma prepareToPrint_document layout sectionElem v onOff w1 w2 :
  document w1 = document w2 ->
  document (prepareToPrint layout sectionElem v onOff w1)
  = document (prepareToPrint layout sectionElem v onOff w2).
Proof. intros E. rewrite !prepareToPrint_window. simpl. rewrite E. reflexivity. Qed.



(* ===================================================================== *)
(** * prepareToPrint(true) followed by prepareToPrint(false)             *)
(* ===================================================================== *)

Lemma toggle_false_absent token cl :
  ~ In token cl -> toggle token false cl = cl.
Proof.
  unfold toggle. induction cl as [|t cl IH]; simpl; intros H; [reflexivity|].
  destruct (String.eqb_spec t token) as [->|]; simpl.
  - exfalso. apply H. left; reflexivity.
  - f_equal. apply IH. tauto.
Qed.

Lemma toggle_true_false token cl :
  ~ In token cl -> toggle token false (toggle token true cl) = cl.
Proof.
  intros H. unfold toggle at 2.
  destruct (contains_token token cl) eqn:E.
  - apply contains_token_In in E. contradiction.
  - unfold toggle. rewrite filter_app. simpl. rewrite String.eqb_refl. simpl.
    rewrite app_nil_r. apply (toggle_false_absent token cl H).
Qed.

Lemma toggle_false_true_comm t t' cl :
  t <> t' ->
  toggle t false (toggle t' true cl) = toggle t' true (toggle t false cl).
Proof.
  intros Hne. unfold toggle at 2 3.
  rewrite (toggle_keeps_other t' t false) by congruence.
  destruct (contains_token t' cl); [reflexivity|].
  unfold toggle. rewrite filter_app. simpl.
  destruct (String.eqb_spec t' t); [congruence|]. reflexivity.
Qed.

Lemma printClasses_round_trip layout sectionElem keyElem p cl :
  ~ In "print-hide" cl -> ~ In "print-widget" cl -> ~ In "print-parent" cl ->
  printClasses layout sectionElem keyElem p false
    (printClasses layout sectionElem keyElem p true cl) = cl.
Proof.
  intros H1 H2 H3. unfold printClasses, toggleIf.
  destruct (properAncestor p keyElem), (nodeRef_eqb p sectionElem),
           (hiddenBox layout sectionElem p);
    repeat first
      [ rewrite (toggle_true_false _ cl) by assumption
      | rewrite (toggle_false_absent _ cl) by assumption
      | rewrite (toggle_false_true_comm "print-hide" "print-widget") by discriminate
      | rewrite (toggle_false_true_comm "print-hide" "print-parent") by discriminate
      | rewrite (toggle_false_true_comm "print-widget" "print-parent") by discriminate
      | rewrite (toggle_false_true_comm "print-widget" "print-hide") by discriminate
      | rewrite (toggle_false_true_comm "print-parent" "print-hide") by discriminate
      | rewrite (toggle_false_true_comm "print-parent" "print-widget") by discriminate ];
    reflexivity.
Qed.

Lemma keyElemOf_markedPage layout sectionElem onOff d :
  keyElemOf sectionElem (markedPage layout sectionElem onOff d)
  = keyElemOf sectionElem d.
Proof.
  unfold keyElemOf, markedPage.
  rewrite querySelector_classList_toggle by discriminate.
  rewrite querySelector_toggle_each by discriminate. reflexivity.
Qed.

(** For a view whose own [prepareToPrint] leaves the page alone, switching
    print rendering on and off again restores the class list of every
    element that carried none of the three tokens. *)
Lemma prepareToPrint_round_trip_static_view layout sectionElem v w p cl :
  (forall onOff d, view_prepareToPrint v onOff d = d) ->
  classesAt p (document w) = Some cl ->
  ~ In "print-hide" cl -> ~ In "print-widget" cl -> ~ In "print-parent" cl ->
  classesAt p
    (document (prepareToPrint layout sectionElem v false
                 (prepareToPrint layout sectionElem v true w)))
  = Some cl.
Proof.
  intros Hv Hcl H1 H2 H3.
  assert (Hk : forall onOff, view_keeps_classes v onOff).
  { intros onOff d q c Hq. rewrite Hv. exact Hq. }
  rewrite (prepareToPrint_classes layout sectionElem v false _ p _ (Hk false)
             (prepareToPrint_classes layout sectionElem v true w p cl
                (Hk true) Hcl)).
  rewrite !prepareToPrint_keyElem, !Hv, !keyElemOf_markedPage.
  rewrite prepareToPrint_keyElem, Hv, keyElemOf_markedPage.
  rewrite printClasses_round_trip by assumption. reflexivity.
Qed.

(** C9, on a scrolly-based view.  No element of the page carries any of the
    three tokens; yet after [prepareToPrint(true)] and then
    [prepareToPrint(false)] the section element still carries
    [print-parent]: the first run started from the [print-all-rows] element,
    the second, that element being gone, from the section element. *)
Theorem prepareToPrint_round_trip_scrolly_view :
  let w := Page.window false in
  let w1 := prepareToPrint Page.layout Page.sectionElem Page.scrollyView true w in
  let w2 := prepareToPrint Page.layout Page.sectionElem Page.scrollyView false w1 in
  keyElemOf Page.sectionElem (document w1) = [0; 0; 1] /\
  keyElemOf Page.sectionElem (document w2) = Page.sectionElem /\
  classesAt Page.sectionElem (document w) = Some ["viewsection_content"] /\
  classesAt Page.sectionElem (document w2)
  = Some ["viewsection_content"; "print-parent"] /\
  document w2
  = Elem ["root"]
      [ Elem ["layout_box"]
          [ Elem ["viewsection_content"; "print-parent"] [ Elem ["grid"] [] ] ];
        Elem ["layout_box"] [ Elem ["viewsection_content"] [] ] ].
Proof. vm_compute. repeat split. Qed.

(** The same through [printViewSection], with [window.debugPrinting] unset:
    after the print the page differs from the page before it. *)
Example printViewSection_leaves_print_parent :
  exists w',
    printViewSection Page.layout (mkViewSectionRec (Some Page.scrollyView))
      (Page.window false) = Returns w' /\
    classesAt Page.sectionElem (document w')
    = Some ["viewsection_content"; "print-parent"].
Proof. eexists. split; vm_compute; reflexivity. Qed.

(** With a view that does not re-render for printing, the same page is
    restored. *)
Example printViewSection_restores_static_view :
  exists w',
    printViewSection Page.layout (mkViewSectionRec (Some Page.plainView))
      (Page.window false) = Returns w' /\
    document w' = Page.page.
Proof. eexists. split; vm_compute; reflexivity. Qed.

(* ===================================================================== *)
(** * Further properties of the session resolvers                        *)
(* ===================================================================== *)

(** X1. On a session without exceptional mode, whenever
    [getDocSessionAccess] returns a role, [getDocSessionUserId] takes the
    user id from the same collaborator: both from the authorizer, or both
    from the request.  A role is never paired with the client's cached user
    id. *)
Theorem resolvers_agree_on_source (getUserId : RequestWithLogin -> Z)
    (s : OptDocSession) (role : Role) :
  mode s = None ->
  outcome (getDocSessionAccess s) = Returns role ->
  (exists a,
     authorizer s = Some a /\
     access (Authorizer.getCachedAuth a) = Some role /\
     consulted (getDocSessionAccess s) = [authorizer_getCachedAuth] /\
     getDocSessionUserId getUserId s
     = mkRun [authorizer_getUserId] (Returns (Authorizer.getUserId a))) \/
  (exists r d,
     authorizer s = None /\ req s = Some r /\
     docAuth r = Some d /\ access d = Some role /\
     consulted (getDocSessionAccess s) = [req_docAuth] /\
     getDocSessionUserId getUserId s
     = mkRun [req_getUserId] (Returns (Some (getUserId r)))).
Proof.
  unfold getDocSessionAccess, getDocSessionUserId. intros Hm. rewrite Hm.
  simpl. destruct (authorizer s) as [a|].
  - destruct a as [uid [[ro|]]]; simpl; intros H; [|discriminate].
    injection H as ->. left. eexists. repeat split.
  - destruct (req s) as [r|]; [|discriminate].
    destruct r as [uid [[[ro|]]|]]; simpl; intros H; try discriminate.
    injection H as ->. right. do 2 eexists. repeat split.
Qed.

Lemma resolvers_agree_on_source_witness :
  getDocSessionUserId Sessions.req_userId
    (docSessionFromRequest Sessions.viewer_req)
  = mkRun [req_getUserId] (Returns (Some 9%Z)).
Proof.
  destruct (resolvers_agree_on_source Sessions.req_userId
              (docSessionFromRequest Sessions.viewer_req) viewers
              eq_refl eq_refl)
    as [(a & H & _) | (r & d & _ & Hr & _ & _ & _ & H)].
  - discriminate H.
  - injection Hr as <-. exact H.
Defined.

(** X2. An authorizer shadows the request: with no exceptional mode and an
    authorizer present, the outcome of [getDocSessionAccess] is decided by
    the authorizer alone and the request is not consulted; when the
    authorizer has no cached access the call throws, even though the request
    may carry one. *)
Theorem getDocSessionAccess_authorizer_shadows_request (s : OptDocSession)
    (a : Authorizer.t) :
  mode s = None -> authorizer s = Some a ->
  consulted (getDocSessionAccess s) = [authorizer_getCachedAuth] /\
  (forall s', mode s' = None -> authorizer s' = Some a ->
     getDocSessionAccess s' = getDocSessionAccess s) /\
  (access (Authorizer.getCachedAuth a) = None ->
     outcome (getDocSessionAccess s)
     = Throws "getDocSessionAccess expected authorizer.getCachedAuth").
Proof.
  intros Hm Ha.
  assert (E : forall t, mode t = None -> authorizer t = Some a ->
            getDocSessionAccess t
            = match access (Authorizer.getCachedAuth a) with
              | Some r => mkRun [authorizer_getCachedAuth] (Returns r)
              | None => mkRun [authorizer_getCachedAuth]
                          (Throws "getDocSessionAccess expected authorizer.getCachedAuth")
              end).
  { intros t Ht Hta. unfold getDocSessionAccess. rewrite Ht, Hta.
    unfold bind, consult. cbn.
    destruct (access (Authorizer.getCachedAuth a)); reflexivity. }
  rewrite (E s Hm Ha). split; [|split].
  - destruct (access (Authorizer.getCachedAuth a)); reflexivity.
  - intros s' Hm' Ha'. apply E; assumption.
  - intros ->. reflexivity.
Qed.

Lemma getDocSessionAccess_authorizer_shadows_request_witness :
  outcome (getDocSessionAccess
             (mkOptDocSession None None None None (Some Sessions.viewer_req)
                None (Some (Authorizer.make (Some 5%Z) (mkDocAuthResult None)))))
  = Throws "getDocSessionAccess expected authorizer.getCachedAuth".
Proof.
  apply (getDocSessionAccess_authorizer_shadows_request _
           (Authorizer.make (Some 5%Z) (mkDocAuthResult None)));
    reflexivity.
Defined.

(** X3. A session built by [makeExceptionalDocSession] always has access:
    for every mode and every options, [getDocSessionAccess] returns the
    role of the mode, consulting nothing.  Its user id is still the real
    one: from [options.req] if given, else from the client's cache, else
    [null]. *)
Theorem makeExceptionalDocSession_resolves (getUserId : RequestWithLogin -> Z)
    (m : Mode) (o : ExceptionalOptions) :
  getDocSessionAccess (makeExceptionalDocSession m o) = ret (mode_role m) /\
  getDocSessionUserId getUserId (makeExceptionalDocSession m o)
  = match opt_req o, opt_client o with
    | Some r, _ => mkRun [req_getUserId] (Returns (Some (getUserId r)))
    | None, Some c =>
      mkRun [client_getCachedUserId] (Returns (Client.getCachedUserId c))
    | None, None => ret None
    end.
Proof.
  split.
  - destruct m; reflexivity.
  - destruct o as [[c|] [r|] b]; reflexivity.
Qed.

(** X4. A session built by [docSessionFromRequest] resolves both answers
    from the request: the user id is [getUserId(req)], and the role is
    [req.docAuth.access] when the access middleware has filled it in; when
    [docAuth] or its [access] is missing the call throws
    "expected req.docAuth.access". *)
Theorem docSessionFromRequest_resolves (getUserId : RequestWithLogin -> Z)
    (r : RequestWithLogin) :
  getDocSessionUserId getUserId (docSessionFromRequest r)
  = mkRun [req_getUserId] (Returns (Some (getUserId r))) /\
  consulted (getDocSessionAccess (docSessionFromRequest r)) = [req_docAuth] /\
  (forall role,
     outcome (getDocSessionAccess (docSessionFromRequest r)) = Returns role
     <-> exists d, docAuth r = Some d /\ access d = Some role) /\
  ((docAuth r = None \/ exists d, docAuth r = Some d /\ access d = None)
   <-> outcome (getDocSessionAccess (docSessionFromRequest r))
       = Throws "getDocSessionAccess expected req.docAuth.access").
Proof.
  destruct r as [uid [[[ro|]]|]]; cbn; repeat split;
    try discriminate; try reflexivity.
  - intros H. injection H as ->. eexists. split; reflexivity.
  - intros (d & Hd & H). injection Hd as <-. simpl in H. congruence.
  - intros [H | (d & Hd & H)]; [discriminate|].
    injection Hd as <-. discriminate H.
  - intros (d & Hd & H). injection Hd as <-. discriminate H.
  - intros _. right. eexists. split; reflexivity.
  - intros (d & Hd & H). discriminate Hd.
  - intros _. left. reflexivity.
Qed.

(** X5. A full [DocSession] answers from its authorizer: used as an
    [OptDocSession], its user id is the authorizer's and its role the
    authorizer's cached access; the client's cached user id is never
    consulted, although a client is always present.  Its browser settings
    are the client's, the same that [makeOptDocSession(client)] reports. *)
Theorem DocSession_resolves {ActiveDoc : Type} (getUserId : RequestWithLogin -> Z)
    (s : DocSession.t ActiveDoc) :
  getDocSessionUserId getUserId (asOptDocSession s)
  = mkRun [authorizer_getUserId]
      (Returns (Authorizer.getUserId (DocSession.authorizer s))) /\
  consulted (getDocSessionAccess (asOptDocSession s))
  = [authorizer_getCachedAuth] /\
  (forall role,
     outcome (getDocSessionAccess (asOptDocSession s)) = Returns role
     <-> access (Authorizer.getCachedAuth (DocSession.authorizer s))
         = Some role) /\
  browserSettings (asOptDocSession s)
  = browserSettings (makeOptDocSession (Some (DocSession.client s)) None).
Proof.
  destruct s as [doc c fd [uid [[ro|]]] sba lid]; cbn; repeat split;
    try discriminate; congruence.
Qed.

(** X6. A session built by [makeOptDocSession] alone never yields a role:
    whatever the client and the browser settings, [getDocSessionAccess]
    throws "could not find access information"; [getDocSessionUserId]
    gives the client's cached user id, or [null] without a client. *)
Theorem makeOptDocSession_resolves (getUserId : RequestWithLogin -> Z)
    (c : option Client.t) (b : option BrowserSettings) :
  getDocSessionAccess (makeOptDocSession c b)
  = throw "getDocSessionAccess could not find access information in DocSession" /\
  getDocSessionUserId getUserId (makeOptDocSession c b)
  = match c with
    | Some c => mkRun [client_getCachedUserId]
                  (Returns (Client.getCachedUserId c))
    | None => ret None
    end.
Proof. destruct c; split; reflexivity. Qed.

(* ===================================================================== *)
(** * Further properties of printViewSection                             *)
(* ===================================================================== *)

Lemma onPathUp_parentElement (r p : NodeRef) :
  onPathUp r (Some p) <-> r = p \/ onPathUp r (parentElement p).
Proof.
  unfold onPathUp. rewrite (contains_parentElement p r), orb_true_iff.
  rewrite nodeRef_eqb_eq.
  destruct (parentElement p); [tauto|]. intuition discriminate.
Qed.

(** What the upward walk of [closest] finds: the nearest element on the
    way up that carries the class, or nothing when none does. *)
Lemma closest_spec (c : string) (d : Element) (elem : option NodeRef) :
  match closest c d elem with
  | Some q =>
    onPathUp q elem /\ hasClass c d q = true /\
    (forall r, onPathUp r elem -> contains q r = true -> r <> q ->
       hasClass c d r = false)
  | None => forall r, onPathUp r elem -> hasClass c d r = false
  end.
Proof.
  funelim (closest c d elem); [|intros r []].
  clear Heqcall. rename H into IH.
  fold (hasClass c d p). destruct (hasClass c d p) eqn:Hp.
  - split; [|split].
    + apply onPathUp_parentElement. left; reflexivity.
    + exact Hp.
    + intros r Hr Hqr Hne. exfalso. apply Hne.
      apply contains_antisym; assumption.
  - destruct (closest c d (parentElement p)) as [q|].
    + destruct IH as (H1 & H2 & H3). split; [|split].
      * apply onPathUp_parentElement. right; exact H1.
      * exact H2.
      * intros r Hr Hqr Hne.
        apply onPathUp_parentElement in Hr. destruct Hr as [->|Hr];
          [exact Hp | apply H3; assumption].
    + intros r Hr. apply onPathUp_parentElement in Hr.
      destruct Hr as [->|Hr]; [exact Hp | apply IH, Hr].
Qed.

(** X7. [printViewSection] throws "No page widget to print", and nothing
    else, exactly when there is no view instance, or no view pane, or
    neither the view pane nor any of its ancestors carries the class
    [viewsection_content]; otherwise it returns. *)
Theorem printViewSection_throws_iff (layout : Layout)
    (viewSection : ViewSectionRec) (w : Window) :
  (printViewSection layout viewSection w = Throws "No page widget to print"
   <-> forall v, viewInstance viewSection = Some v ->
         forall r, onPathUp r (viewPane v) ->
           hasClass "viewsection_content" (document w) r = false) /\
  (forall message, printViewSection layout viewSection w = Throws message ->
     message = "No page widget to print") /\
  ((exists w', printViewSection layout viewSection w = Returns w')
   <-> exists v r, viewInstance viewSection = Some v /\
         onPathUp r (viewPane v) /\
         hasClass "viewsection_content" (document w) r = true).
Proof.
  unfold printViewSection.
  destruct (viewInstance viewSection) as [v|].
  2:{ split; [|split].
      - split; [intros _ v H; discriminate H | reflexivity].
      - intros m H. injection H as <-. reflexivity.
      - split; [intros [w' H]; discriminate H|].
        intros (v & r & H & _). discriminate H. }
  pose proof (closest_spec "viewsection_content" (document w) (viewPane v))
    as Hspec.
  destruct (closest "viewsection_content" (document w) (viewPane v))
    as [sectionElem|].
  - destruct Hspec as (Hon & Hcl & _).
    assert (Hret : exists w',
      match
        (if isCustomView v
         then if triggerPrint v then inl (observe TriggerPrint w)
              else inr (observe ConsoleWarn (observe TriggerPrint w))
         else inr w)
      with
      | inl w0 => Returns w0
      | inr w0 =>
        let '(sub1, w1) :=
          onElem beforeprint (OnBeforePrint layout sectionElem v) w0 in
        let '(_, w2) :=
          onElem afterprint (OnAfterPrint sub1 layout sectionElem v) w1 in
        Returns (window_print w2)
      end = Returns w').
    { destruct (isCustomView v), (triggerPrint v); eexists; reflexivity. }
    destruct Hret as [w' Hret]. rewrite Hret. split; [|split].
    + split; [discriminate|]. intros H.
      rewrite (H v eq_refl sectionElem Hon) in Hcl. discriminate Hcl.
    + discriminate.
    + split; [|intros _; eexists; reflexivity].
      intros _. exists v, sectionElem. auto.
  - split; [|split].
    + split; [|reflexivity]. intros _ v' E. injection E as <-. exact Hspec.
    + intros m H. injection H as <-. reflexivity.
    + split; [intros [w' H]; discriminate H|].
      intros (v' & r & E & Hon & Hcl). injection E as <-.
      rewrite (Hspec r Hon) in Hcl. discriminate Hcl.
Qed.

(** X8. For a custom view whose [triggerPrint()] succeeds,
    [printViewSection] leaves printing to the view: it returns with the page
    and the listeners as they were, having registered nothing, called
    neither [prepareToPrint] nor [window.print()], and observed only the
    call of [triggerPrint]. *)
Theorem printViewSection_custom_view (layout : Layout)
    (viewSection : ViewSectionRec) (v : ViewInstance) (r : NodeRef)
    (w : Window) :
  viewInstance viewSection = Some v ->
  onPathUp r (viewPane v) ->
  hasClass "viewsection_content" (document w) r = true ->
  isCustomView v = true -> triggerPrint v = true ->
  exists w',
    printViewSection layout viewSection w = Returns w' /\
    document w' = document w /\
    listeners w' = listeners w /\
    nextSub w' = nextSub w /\
    observed w' = observed w ++ [TriggerPrint].
Proof.
  intros Hv Hon Hcl Hc Ht. unfold printViewSection. rewrite Hv.
  pose proof (closest_spec "viewsection_content" (document w) (viewPane v))
    as Hspec.
  destruct (closest "viewsection_content" (document w) (viewPane v))
    as [sectionElem|].
  - rewrite Hc, Ht. eexists. repeat split.
  - rewrite (Hspec r Hon) in Hcl. discriminate Hcl.
Qed.

Lemma printViewSection_custom_view_witness :
  exists w',
    printViewSection Page.layout
      (mkViewSectionRec
         (Some (mkViewInstance true true (Some [0; 0; 0]) (fun _ d => d))))
      (Page.window false) = Returns w' /\
    document w' = Page.page /\
    observed w' = [TriggerPrint].
Proof.
  destruct (printViewSection_custom_view Page.layout
              (mkViewSectionRec
                 (Some (mkViewInstance true true (Some [0; 0; 0])
                          (fun _ d => d))))
              _ [0; 0] (Page.window false)
              eq_refl eq_refl eq_refl eq_refl eq_refl)
    as (w' & H1 & H2 & _ & _ & H3).
  exists w'. repeat split; assumption.
Defined.

(* ===================================================================== *)
(** * Further properties of prepareToPrint                               *)
(* ===================================================================== *)

Lemma In_toggle_false x token cl :
  In x (toggle token false cl) <-> x <> token /\ In x cl.
Proof.
  unfold toggle. rewrite filter_In, negb_true_iff.
  destruct (String.eqb_spec x token); intuition congruence.
Qed.

Lemma toggle_true_present token cl : In token cl -> toggle token true cl = cl.
Proof.
  intros H. unfold toggle. apply contains_token_In in H. rewrite H.
  reflexivity.
Qed.

Lemma otherTokens_toggle token onOff cl :
  isPrintToken token = true ->
  otherTokens (toggle token onOff cl) = otherTokens cl.
Proof.
  intros Ht. unfold otherTokens, toggle. destruct onOff.
  - destruct (contains_token token cl); [reflexivity|].
    rewrite filter_app. simpl. rewrite Ht. simpl. apply app_nil_r.
  - induction cl as [|t cl IH]; simpl; [reflexivity|].
    destruct (String.eqb_spec t token) as [->|]; simpl.
    + rewrite Ht. simpl. exact IH.
    + destruct (isPrintToken t); simpl; [exact IH | f_equal; exact IH].
Qed.

Lemma otherTokens_printClasses layout sectionElem keyElem p onOff cl :
  otherTokens (printClasses layout sectionElem keyElem p onOff cl)
  = otherTokens cl.
Proof.
  unfold printClasses, toggleIf.
  destruct (properAncestor p keyElem), (nodeRef_eqb p sectionElem),
           (hiddenBox layout sectionElem p);
    rewrite ?otherTokens_toggle by reflexivity; reflexivity.
Qed.

(** Induction on the page tree. *)
Lemma Element_ind_nested (P : Element -> Prop) :
  (forall cl cs, Forall P cs -> P (Elem cl cs)) -> forall e, P e.
Proof.
  intros H. fix IH 1. intros [cl cs]. apply H.
  induction cs as [|c cs IHcs]; constructor; [apply IH | exact IHcs].
Qed.

(** Two pages with the same elements and the same class lists are the same
    page. *)
Lemma classesAt_ext (d : Element) :
  forall d', (forall p, classesAt p d = classesAt p d') -> d = d'.
Proof.
  induction d as [cl cs IH] using Element_ind_nested. intros [cl' cs'] H.
  assert (Hcl : cl = cl').
  { specialize (H []). injection H as ->. reflexivity. }
  subst cl'. f_equal.
  assert (Hcs : forall i p,
            match nth_error cs i with
            | Some c => classesAt p c
            | None => None
            end
            = match nth_error cs' i with
              | Some c => classesAt p c
              | None => None
              end).
  { intros i p. specialize (H (i :: p)). unfold classesAt in *.
    cbn [getElem children] in H.
    destruct (nth_error cs i), (nth_error cs' i); exact H. }
  clear H. revert cs' Hcs.
  induction IH as [|c cs Hc _ IHcs]; intros [|c' cs'] H.
  - reflexivity.
  - specialize (H 0 []). discriminate H.
  - specialize (H 0 []). discriminate H.
  - f_equal.
    + apply Hc. intros p. exact (H 0 p).
    + apply IHcs. intros i p. exact (H (S i) p).
Qed.

(** The class list of every element, existing or not, after
    [prepareToPrint(onOff)] with a view that does not re-render. *)
Lemma prepareToPrint_static_classes layout sectionElem v onOff w p :
  staticView v ->
  classesAt p (document (prepareToPrint layout sectionElem v onOff w))
  = option_map
      (printClasses layout sectionElem (keyElemOf sectionElem (document w))
         p onOff)
      (classesAt p (document w)).
Proof.
  intros Hv. rewrite prepareToPrint_window. cbn [document].
  rewrite classesAt_toggleUpwards, properAncestor_parentElement.
  rewrite !Hv, keyElemOf_markedPage, classesAt_markedPage.
  destruct (classesAt p (document w)); reflexivity.
Qed.

Lemma prepareToPrint_static_keyElem layout sectionElem v onOff w :
  staticView v ->
  keyElemOf sectionElem (document (prepareToPrint layout sectionElem v onOff w))
  = keyElemOf sectionElem (document w).
Proof.
  intros Hv. rewrite prepareToPrint_keyElem, Hv. apply keyElemOf_markedPage.
Qed.

Lemma printClasses_idempotent layout sectionElem keyElem p onOff cl :
  printClasses layout sectionElem keyElem p onOff
    (printClasses layout sectionElem keyElem p onOff cl)
  = printClasses layout sectionElem keyElem p onOff cl.
Proof.
  unfold printClasses, toggleIf.
  destruct onOff;
    destruct (properAncestor p keyElem), (nodeRef_eqb p sectionElem),
             (hiddenBox layout sectionElem p);
    try reflexivity;
    repeat first
      [ rewrite toggle_true_present
          by (repeat first [apply In_toggle_same | apply In_toggle_mono])
      | rewrite toggle_false_absent
          by (rewrite ?In_toggle_false; intuition congruence) ];
    reflexivity.
Qed.

(** X9. [prepareToPrint] touches nothing but its three tokens: switching on
    or off, with a view that leaves class lists alone, every element of the
    page is still there and the rest of its class list is unchanged, order
    included. *)
Theorem prepareToPrint_keeps_other_tokens layout sectionElem v onOff w :
  view_keeps_classes v onOff ->
  forall p cl,
    classesAt p (document w) = Some cl ->
    exists cl',
      classesAt p (document (prepareToPrint layout sectionElem v onOff w))
      = Some cl' /\
      otherTokens cl' = otherTokens cl /\
      (forall t, isPrintToken t = false -> (In t cl' <-> In t cl)).
Proof.
  intros Hv p cl Hcl. eexists. split.
  - apply prepareToPrint_classes; eassumption.
  - assert (E := otherTokens_printClasses layout sectionElem
                   (keyElemOf sectionElem
                      (document (prepareToPrint layout sectionElem v onOff w)))
                   p onOff cl).
    split; [exact E|]. intros t Ht.
    assert (F : forall l, In t (otherTokens l) <-> In t l).
    { intros l. unfold otherTokens. rewrite filter_In, Ht. simpl. tauto. }
    rewrite <- (F cl), <- E, F. tauto.
Qed.

Lemma prepareToPrint_keeps_other_tokens_witness :
  exists cl',
    classesAt Page.sectionElem
      (document (prepareToPrint Page.layout Page.sectionElem Page.scrollyView
                   true (Page.window false)))
    = Some cl' /\
    otherTokens cl' = ["viewsection_content"].
Proof.
  destruct (prepareToPrint_keeps_other_tokens Page.layout Page.sectionElem
              Page.scrollyView true (Page.window false)
              scrollyView_keeps_classes Page.sectionElem
              ["viewsection_content"] eq_refl)
    as (cl' & H1 & H2 & _).
  exists cl'. split; [exact H1 | exact H2].
Defined.

(** The class list of an element that the view's own call leaves in place
    with its class list, after [prepareToPrint(onOff)]. *)
Lemma prepareToPrint_classes_at layout sectionElem v onOff w p cl :
  classesAt p (document w) = Some cl ->
  classesAt p
    (view_prepareToPrint v onOff
       (markedPage layout sectionElem onOff (document w)))
  = classesAt p (markedPage layout sectionElem onOff (document w)) ->
  classesAt p (document (prepareToPrint layout sectionElem v onOff w))
  = Some (printClasses layout sectionElem
            (keyElemOf sectionElem
               (document (prepareToPrint layout sectionElem v onOff w)))
            p onOff cl).
Proof.
  intros Hcl Hview. rewrite prepareToPrint_keyElem.
  rewrite prepareToPrint_window. cbn [document].
  rewrite classesAt_toggleUpwards, properAncestor_parentElement.
  rewrite Hview, classesAt_markedPage, Hcl. reflexivity.
Qed.

(** X10. [prepareToPrint(false)] only removes.  For every element that the
    view's own [prepareToPrint(false)] leaves in place with its class list
    (the view may well remove or re-render other elements, such as its
    [print-all-rows] element), afterwards: a layout box outside the section
    does not carry [print-hide], the section element does not carry
    [print-widget], a proper ancestor of the key element does not carry
    [print-parent], the element has gained no token, and if it carried none
    of the three tokens its class list is unchanged. *)
Theorem prepareToPrint_false_removes layout sectionElem v w p cl :
  classesAt p (document w) = Some cl ->
  classesAt p
    (view_prepareToPrint v false
       (markedPage layout sectionElem false (document w)))
  = classesAt p (markedPage layout sectionElem false (document w)) ->
  let w' := prepareToPrint layout sectionElem v false w in
  let keyElem := keyElemOf sectionElem (document w') in
  exists cl',
    classesAt p (document w') = Some cl' /\
    (In p layout -> contains p sectionElem = false ->
       ~ In "print-hide" cl') /\
    (p = sectionElem -> ~ In "print-widget" cl') /\
    (properAncestor p keyElem = true -> ~ In "print-parent" cl') /\
    (forall t, In t cl' -> In t cl) /\
    ((forall t, isPrintToken t = true -> ~ In t cl) -> cl' = cl).
Proof.
  intros Hcl Hview w' keyElem.
  exists (printClasses layout sectionElem keyElem p false cl).
  split; [apply prepareToPrint_classes_at; assumption|].
  unfold printClasses, toggleIf.
  refine (conj _ (conj _ (conj _ (conj _ _)))).
  - intros Hin Hc.
    assert (Hh : hiddenBox layout sectionElem p = true)
      by (apply hiddenBox_spec; tauto).
    rewrite Hh.
    destruct (properAncestor p keyElem), (nodeRef_eqb p sectionElem);
      rewrite ?In_toggle_false; intuition congruence.
  - intros ->. rewrite nodeRef_eqb_refl.
    destruct (properAncestor sectionElem keyElem),
             (hiddenBox layout sectionElem sectionElem);
      rewrite ?In_toggle_false; intuition congruence.
  - intros ->. rewrite In_toggle_false. intuition congruence.
  - intros t.
    destruct (properAncestor p keyElem), (nodeRef_eqb p sectionElem),
             (hiddenBox layout sectionElem p);
      rewrite ?In_toggle_false; tauto.
  - intros Hfree.
    destruct (properAncestor p keyElem), (nodeRef_eqb p sectionElem),
             (hiddenBox layout sectionElem p);
      repeat (rewrite (toggle_false_absent _ cl) by (apply Hfree; reflexivity));
      reflexivity.
Qed.

(** Switching off after a print with the scrolly-based view, which removes
    its [print-all-rows] element on the way: the other layout box loses
    [print-hide]. *)
Lemma prepareToPrint_false_removes_witness :
  let printed :=
    prepareToPrint Page.layout Page.sectionElem Page.scrollyView true
      (Page.window false) in
  classesAt [1] (document printed) = Some ["layout_box"; "print-hide"] /\
  exists cl',
    classesAt [1]
      (document (prepareToPrint Page.layout Page.sectionElem Page.scrollyView
                   false printed))
    = Some cl' /\
    ~ In "print-hide" cl'.
Proof.
  split; [reflexivity|].
  destruct (prepareToPrint_false_removes Page.layout Page.sectionElem
              Page.scrollyView
              (prepareToPrint Page.layout Page.sectionElem Page.scrollyView
                 true (Page.window false))
              [1] ["layout_box"; "print-hide"] eq_refl eq_refl)
    as (cl' & H1 & H2 & _).
  exists cl'. split; [exact H1|].
  apply H2; [right; left; reflexivity | reflexivity].
Defined.

(** X11. With a view that does not re-render, [prepareToPrint(onOff)] is
    idempotent: running it twice leaves the same page as running it once. *)
Theorem prepareToPrint_idempotent layout sectionElem v onOff w :
  staticView v ->
  document (prepareToPrint layout sectionElem v onOff
              (prepareToPrint layout sectionElem v onOff w))
  = document (prepareToPrint layout sectionElem v onOff w).
Proof.
  intros Hv. apply classesAt_ext. intros p.
  rewrite (prepareToPrint_static_classes layout sectionElem v onOff _ p Hv).
  rewrite (prepareToPrint_static_keyElem layout sectionElem v onOff w Hv).
  rewrite (prepareToPrint_static_classes layout sectionElem v onOff w p Hv).
  destruct (classesAt p (document w)) as [cl|]; [|reflexivity].
  simpl. f_equal. apply printClasses_idempotent.
Qed.

Lemma prepareToPrint_idempotent_witness :
  document (prepareToPrint Page.layout Page.sectionElem Page.plainView true
              (prepareToPrint Page.layout Page.sectionElem Page.plainView true
                 (Page.window false)))
  = Elem ["root"; "print-parent"]
      [ Elem ["layout_box"; "print-parent"]
          [ Elem ["viewsection_content"; "print-widget"] [ Elem ["grid"] [] ] ];
        Elem ["layout_box"; "print-hide"] [ Elem ["viewsection_content"] [] ] ].
Proof.
  rewrite (prepareToPrint_idempotent Page.layout Page.sectionElem
             Page.plainView true (Page.window false) (fun _ _ => eq_refl)).
  reflexivity.
Defined.

(** On, then off, with a view that does not re-render, on a page free of
    the three tokens. *)
Lemma on_off_static_view layout sectionElem v w :
  staticView v ->
  printTokenFree (document w) ->
  document (prepareToPrint layout sectionElem v false
              (prepareToPrint layout sectionElem v true w))
  = document w.
Proof.
  intros Hv Hfree. apply classesAt_ext. intros p.
  rewrite (prepareToPrint_static_classes layout sectionElem v false _ p Hv).
  rewrite (prepareToPrint_static_keyElem layout sectionElem v true w Hv).
  rewrite (prepareToPrint_static_classes layout sectionElem v true w p Hv).
  destruct (classesAt p (document w)) as [cl|] eqn:Hcl; [|reflexivity].
  simpl. f_equal.
  apply printClasses_round_trip; apply (Hfree p cl _ Hcl); reflexivity.
Qed.

(** X12. With a view that does not re-render, on a page where no element
    carries one of the three tokens, [prepareToPrint(true)] followed by
    [prepareToPrint(false)] gives back the very same page. *)
Theorem prepareToPrint_on_off_restores_page layout sectionElem v w :
  staticView v ->
  printTokenFree (document w) ->
  document (prepareToPrint layout sectionElem v false
              (prepareToPrint layout sectionElem v true w))
  = document w.
Proof. apply on_off_static_view. Qed.

Lemma tokenFreeb_sound (d : Element) :
  tokenFreeb d = true -> printTokenFree d.
Proof.
  unfold printTokenFree, classesAt.
  induction d as [cl cs IH] using Element_ind_nested.
  intros H [|i p] cl' t Hp Ht Hin; simpl in H;
    apply andb_true_iff in H; destruct H as [H1 H2].
  - injection Hp as <-. rewrite forallb_forall in H1.
    apply H1 in Hin. rewrite Ht in Hin. discriminate Hin.
  - cbn [getElem children] in Hp.
    destruct (nth_error cs i) as [c|] eqn:E; [|discriminate].
    apply nth_error_In in E. rewrite Forall_forall in IH.
    rewrite forallb_forall in H2.
    exact (IH c E (H2 c E) p cl' t Hp Ht Hin).
Qed.

Lemma prepareToPrint_on_off_restores_page_witness :
  document (prepareToPrint Page.layout Page.sectionElem Page.plainView false
              (prepareToPrint Page.layout Page.sectionElem Page.plainView true
                 (Page.window false)))
  = Page.page.
Proof.
  apply (prepareToPrint_on_off_restores_page Page.layout Page.sectionElem
           Page.plainView (Page.window false)).
  - intros onOff d. reflexivity.
  - apply tokenFreeb_sound. reflexivity.
Defined.

(** What [printViewSection] leaves when it prints from outside: the same
    run as in the printing theorem above, kept as a lemma for reuse. *)
Lemma printViewSection_from_outside layout viewSection v sectionElem w :
  viewInstance viewSection = Some v ->
  closest "viewsection_content" (document w) (viewPane v) = Some sectionElem ->
  isCustomView v = false ->
  listeners w = [] ->
  exists w',
    printViewSection layout viewSection w = Returns w' /\
    listeners w' = [] /\
    observed w'
    = observed w
      ++ ViewPrepareToPrint true
         :: PrintedOutput
              (document (prepareToPrint layout sectionElem v true w))
         :: (if debugPrinting w then [] else [ViewPrepareToPrint false]) /\
    document w'
    = if debugPrinting w
      then document (prepareToPrint layout sectionElem v true w)
      else document (prepareToPrint layout sectionElem v false
                       (prepareToPrint layout sectionElem v true w)).
Proof.
  intros Hv Hsec Hcustom Hl.
  unfold printViewSection. rewrite Hv, Hsec, Hcustom.
  unfold onElem. cbn [fst snd listeners nextSub document debugPrinting observed].
  rewrite Hl. cbn [app].
  eexists. split; [reflexivity|].
  set (w1 := mkWindow _ _ _ _ _).
  assert (E1 : document w1 = document w) by reflexivity.
  assert (Hb : dispatchEvent beforeprint w1
               = prepareToPrint layout sectionElem v true w1).
  { unfold dispatchEvent.
    cbn [w1 listeners fold_left sub_event sub_id sub_handler eventName_eqb
         andb existsb].
    rewrite Nat.eqb_refl. reflexivity. }
  unfold window_print. rewrite Hb.
  set (w2 := prepareToPrint layout sectionElem v true w1).
  set (w3 := observe (PrintedOutput (document w2)) w2).
  assert (Hl3 : listeners w3 = listeners w1)
    by apply prepareToPrint_listeners.
  assert (Hd3 : debugPrinting w3 = debugPrinting w).
  { unfold w3, w2. cbn [observe debugPrinting].
    rewrite prepareToPrint_debugPrinting. reflexivity. }
  set (w4 := dispose (S (nextSub w)) (dispose (nextSub w) w3)).
  assert (Ha : dispatchEvent afterprint w3
               = if debugPrinting w then w4
                 else prepareToPrint layout sectionElem v false w4).
  { unfold dispatchEvent. rewrite Hl3.
    cbn [w1 listeners fold_left sub_event sub_id sub_handler eventName_eqb andb].
    rewrite Hl3. cbn [w1 listeners existsb sub_id].
    rewrite Nat.eqb_refl, orb_true_r. cbn [runHandler dispose debugPrinting].
    rewrite Hd3. destruct (debugPrinting w); reflexivity. }
  rewrite Ha.
  assert (Hl4 : listeners w4 = []).
  { unfold w4. cbn [dispose listeners]. rewrite Hl3.
    cbn [w1 listeners filter sub_id]. rewrite Nat.eqb_refl.
    replace (Nat.eqb (S (nextSub w)) (nextSub w)) with false
      by (symmetry; apply Nat.eqb_neq; lia).
    cbn [negb filter sub_id]. rewrite Nat.eqb_refl. reflexivity. }
  assert (Ho4 : observed w4
                = observed w
                  ++ [ViewPrepareToPrint true;
                      PrintedOutput
                        (document (prepareToPrint layout sectionElem v true w))]).
  { unfold w4. cbn [dispose observed w3 observe]. unfold w2.
    rewrite prepareToPrint_observed.
    rewrite (prepareToPrint_document _ _ _ _ w1 w E1).
    rewrite <- app_assoc. reflexivity. }
  assert (Hdoc4 : document w4
                  = document (prepareToPrint layout sectionElem v true w)).
  { unfold w4. cbn [dispose document w3 observe]. unfold w2.
    apply prepareToPrint_document, E1. }
  destruct (debugPrinting w).
  - rewrite Hl4, Ho4, Hdoc4. repeat split.
  - rewrite prepareToPrint_listeners, prepareToPrint_observed, Hl4, Ho4.
    rewrite <- app_assoc.
    rewrite (prepareToPrint_document _ _ _ _ _ _ Hdoc4).
    repeat split.
Qed.

(** X13. Printing a section whose view does not re-render leaves no trace:
    on a page free of the three tokens, with [window.debugPrinting] unset,
    [printViewSection] returns with the very same page and with no listener
    left, and what was rendered for print is the page
    [prepareToPrint(true)] produced. *)
Theorem printViewSection_restores_page layout viewSection v sectionElem w :
  viewInstance viewSection = Some v ->
  closest "viewsection_content" (document w) (viewPane v) = Some sectionElem ->
  isCustomView v = false ->
  staticView v ->
  printTokenFree (document w) ->
  listeners w = [] ->
  debugPrinting w = false ->
  exists w',
    printViewSection layout viewSection w = Returns w' /\
    document w' = document w /\
    listeners w' = [] /\
    observed w'
    = observed w
      ++ [ViewPrepareToPrint true;
          PrintedOutput (document (prepareToPrint layout sectionElem v true w));
          ViewPrepareToPrint false].
Proof.
  intros Hv Hsec Hcustom Hstatic Hfree Hl Hdebug.
  destruct (printViewSection_from_outside layout viewSection v sectionElem w
              Hv Hsec Hcustom Hl) as (w' & H1 & H2 & H3 & H4).
  rewrite Hdebug in H3, H4.
  exists w'. split; [exact H1|]. split; [|split; [exact H2 | exact H3]].
  rewrite H4. apply on_off_static_view; assumption.
Qed.

Lemma printViewSection_restores_page_witness :
  exists w',
    printViewSection Page.layout (mkViewSectionRec (Some Page.plainView))
      (Page.window false) = Returns w' /\
    document w' = Page.page.
Proof.
  destruct (printViewSection_restores_page Page.layout
              (mkViewSectionRec (Some Page.plainView)) Page.plainView
              Page.sectionElem (Page.window false)
              eq_refl eq_refl eq_refl (fun _ _ => eq_refl)
              (tokenFreeb_sound Page.page eq_refl) eq_refl eq_refl)
    as (w' & H1 & H2 & _).
  exists w'. split; [exact H1 | exact H2].
Defined.

(* ===================================================================== *)
(** * Further properties of renderAllRows                                *)
(* ===================================================================== *)

Lemma renderedRows_ids (rowIds : list RowId) :
  forall start, map snd (renderedRows rowIds start) = numberedIds rowIds.
Proof.
  unfold renderedRows, numberedIds.
  induction rowIds as [|r rest IH]; intros start; [reflexivity|].
  cbn [List.length seq combine flat_map]. rewrite map_app, IH.
  destruct r; reflexivity.
Qed.

Lemma forEach_app {A St : Type} (f : A -> nat -> St -> St) (l1 l2 : list A) :
  forall index s,
    forEach f (l1 ++ l2) index s
    = forEach f l2 (index + List.length l1) (forEach f l1 index s).
Proof.
  induction l1 as [|x l1 IH]; intros index s; simpl.
  - rewrite Nat.add_0_r. reflexivity.
  - rewrite IH. f_equal. lia.
Qed.

Section RenderAllRowsMore.

Context {DataTableModel RenderedRow : Type}.
Variable outerHTML : RenderedRow -> string.
Variable renderRow : DataRowModel DataTableModel -> RenderedRow.
Variable t : DataTableModel.

(** X14. The ['new'] row is not printed: a trailing ['new'] row id (the
    add-row of a table) changes nothing in the result, and when every row id
    is ['new'], the empty list included, the result is an empty
    [div.print-all-rows]. *)
Theorem renderAllRows_new_rows :
  (forall rowIds,
     renderAllRows outerHTML t (rowIds ++ [RowNew]) renderRow
     = renderAllRows outerHTML t rowIds renderRow) /\
  (forall rowIds,
     numberedIds rowIds = [] ->
     renderAllRows outerHTML t rowIds renderRow
     = mkPrintAllRows "div" ["print-all-rows"] "").
Proof.
  split; intros rowIds.
  - unfold renderAllRows. rewrite forEach_app. reflexivity.
  - intros Hnone. unfold renderAllRows.
    rewrite (renderAllRows_loop outerHTML renderRow t) by reflexivity.
    pose proof (renderedRows_ids rowIds 0) as E. rewrite Hnone in E.
    apply map_eq_nil in E. rewrite E. reflexivity.
Qed.

(** X15. For a row renderer whose HTML does not depend on the row index,
    the result depends only on the row ids other than ['new'], in order:
    where the ['new'] entries stand makes no difference. *)
Theorem renderAllRows_ignores_positions :
  (forall m index,
     outerHTML (renderRow (set_index _ index m)) = outerHTML (renderRow m)) ->
  forall rowIds rowIds',
    numberedIds rowIds = numberedIds rowIds' ->
    renderAllRows outerHTML t rowIds renderRow
    = renderAllRows outerHTML t rowIds' renderRow.
Proof.
  intros Hindex rowIds rowIds' Hids.
  assert (E : forall l,
            renderAllRows outerHTML t l renderRow
            = mkPrintAllRows "div" ["print-all-rows"]
                (String.concat newline
                   (map (fun n => outerHTML (renderRow (assignedTo t (0, n))))
                      (numberedIds l)))).
  { intros l. unfold renderAllRows.
    rewrite (renderAllRows_loop outerHTML renderRow t) by reflexivity.
    rewrite <- (renderedRows_ids l 0), map_map. cbn [html app].
    do 2 f_equal. apply map_ext. intros [i n].
    exact (Hindex (assignedTo t (0, n)) i). }
  rewrite (E rowIds), (E rowIds'), Hids. reflexivity.
Qed.

End RenderAllRowsMore.

Lemma renderAllRows_new_rows_witness :
  renderAllRows (fun s : string => s) tt [RowNew; RowNew]
    (fun _ => "<div>row</div>")
  = mkPrintAllRows "div" ["print-all-rows"] "".
Proof.
  apply (renderAllRows_new_rows (fun s : string => s)
           (fun _ => "<div>row</div>") tt).
  reflexivity.
Defined.

Lemma renderAllRows_ignores_positions_witness :
  renderAllRows (fun s : string => s) tt [RowNumber 4; RowNew]
    (fun r => match rowId r with Some 4%Z => "<p>four</p>" | _ => "<p>?</p>" end)
  = renderAllRows (fun s : string => s) tt [RowNew; RowNumber 4]
      (fun r => match rowId r with Some 4%Z => "<p>four</p>" | _ => "<p>?</p>" end).
Proof.
  apply (renderAllRows_ignores_positions (fun s : string => s)
           (fun r => match rowId r with
                     | Some 4%Z => "<p>four</p>"
                     | _ => "<p>?</p>"
                     end) tt).
  - intros m index. reflexivity.
  - reflexivity.
Defined.
